(** * SklearnModel: prediction and explanation pipeline

    A shallow embedding of [src/model/sklearn.py] (class [SklearnModel]):
    the estimator unwrapper [_extract_base_predictor], the inference
    operations [preprocess], [predict], [predict_proba] and the attribution
    engine [explain], together with the parts of numpy and pandas these
    functions rely on. *)

From Stdlib Require Import String Ascii List ZArith Bool Lia DecimalString DecimalZ SpecFloat.
Import ListNotations.
Open Scope string_scope.
Open Scope list_scope.

Set Implicit Arguments.

(** ** Exceptions and the error monad *)

(** Python exceptions, by class, with their message (or key, or attribute). *)
Inductive exn : Type :=
| RuntimeError (msg : string)
| ValueError (msg : string)
| KeyError (key : string)
| IndexError (msg : string)
| AttributeError (attr : string)
| TypeError (msg : string).

(** A call either returns a value or raises. *)
Inductive res (A : Type) : Type :=
| Ok (a : A)
| Raise (e : exn).

Arguments Ok {A} a.
Arguments Raise {A} e.

Definition bind {A B : Type} (c : res A) (k : A -> res B) : res B :=
  match c with
  | Ok a => k a
  | Raise e => Raise e
  end.

Notation "x <- c ;; k" := (bind c (fun x => k))
  (at level 61, c at next level, right associativity).

Definition is_ok {A : Type} (c : res A) : bool :=
  match c with Ok _ => true | Raise _ => false end.

(** ** Python values *)

(** IEEE binary64, as numpy's float64 and Python's float. *)
Definition float := spec_float.
Definition f64_mul : float -> float -> float := SFmul 53 1024.
Definition f64_neg : float -> float := SFopp.
Definition f64_eqb : float -> float -> bool := SFeqb.
Definition f64_one : float := SFone 53 1024.
Definition f64_of_sign (negative : bool) : float :=
  if negative then f64_neg f64_one else f64_one.

Definition is_nan (x : float) : bool :=
  match x with S754_nan => true | _ => false end.

(** Scalars found in feature tables, class lists and predictions. *)
Inductive pyval : Type :=
| VInt (z : Z)
| VFloat (x : float)
| VStr (s : string)
| VBool (b : bool).

(** [sub in s] on Python strings. *)
Fixpoint str_in (sub s : string) : bool :=
  String.prefix sub s ||
  match s with
  | EmptyString => false
  | String _ s' => str_in sub s'
  end.

(** [any(c in s for c in names)] *)
Definition any_in (names : list string) (s : string) : bool :=
  existsb (fun c => str_in c s) names.

(** ** Estimators *)

(** A 2-d numpy array: its second dimension and its rows (numpy keeps
    the number of columns also when there are no rows). *)
Record ndarray (A : Type) : Type := mk_ndarray {
  nd_ncols : nat;
  nd_rows : list (list A)
}.

(** A pandas DataFrame: row labels, column labels and the rows of cells. *)
Record DataFrame (A : Type) : Type := mkDataFrame {
  df_index : list pyval;
  df_columns : list string;
  df_rows : list (list A)
}.

(** A fitted estimator object: the name of its Python class and the
    attributes this module reads, [None] standing for an attribute the
    object does not have. *)
#[local] Unset Elimination Schemes.
Inductive estimator : Type :=
| Estimator
    (type_name : string)
    (steps : option (list (string * estimator)))
    (base_estimator : option estimator)
    (classes_ : option (list pyval))
    (transform : option (DataFrame pyval -> res (DataFrame pyval)))
    (predict : option (DataFrame pyval -> res (list pyval)))
    (predict_proba : option (DataFrame pyval -> res (ndarray float))).
#[local] Set Elimination Schemes.

Definition type_name (m : estimator) : string :=
  let 'Estimator n _ _ _ _ _ _ := m in n.
Definition steps (m : estimator) : option (list (string * estimator)) :=
  let 'Estimator _ s _ _ _ _ _ := m in s.
Definition base_estimator (m : estimator) : option estimator :=
  let 'Estimator _ _ b _ _ _ _ := m in b.
Definition classes_ (m : estimator) : option (list pyval) :=
  let 'Estimator _ _ _ c _ _ _ := m in c.
Definition transform (m : estimator) :=
  let 'Estimator _ _ _ _ t _ _ := m in t.
Definition est_predict (m : estimator) :=
  let 'Estimator _ _ _ _ _ p _ := m in p.
Definition est_predict_proba (m : estimator) :=
  let 'Estimator _ _ _ _ _ _ p := m in p.

(** [getattr(obj, name)] on an attribute that may be missing. *)
Definition getattr {A : Type} (name : string) (a : option A) : res A :=
  match a with
  | Some v => Ok v
  | None => Raise (AttributeError name)
  end.

Definition is_pipeline (m : estimator) : bool :=
  String.eqb (type_name m) "Pipeline".

Definition is_calibration (m : estimator) : bool :=
  str_in "CalibratedClassifier" (type_name m).

(** [SklearnModel._extract_base_predictor]: [model.steps[-1][1]] of a
    Pipeline, [model.base_estimator] of a calibration wrapper, else the
    model itself. *)
Fixpoint _extract_base_predictor (model : estimator) : res estimator :=
  match model with
  | Estimator model_name steps base _ _ _ _ =>
    if String.eqb model_name "Pipeline" then
      match steps with
      | None => Raise (AttributeError "steps")
      | Some l =>
        (fix last_step (l : list (string * estimator)) : res estimator :=
           match l with
           | [] => Raise (IndexError "list index out of range")
           | (_, e) :: [] => _extract_base_predictor e
           | _ :: (_ :: _) as l' => last_step l'
           end) l
      end
    else if str_in "CalibratedClassifier" model_name then
      match base with
      | None => Raise (AttributeError "base_estimator")
      | Some b => _extract_base_predictor b
      end
    else Ok model
  end.

(** [steps[-1][1]] *)
Fixpoint last_step (l : list (string * estimator)) : res estimator :=
  match l with
  | [] => Raise (IndexError "list index out of range")
  | (_, e) :: [] => Ok e
  | _ :: (_ :: _) as l' => last_step l'
  end.

(** The layer directly below a composition or calibration layer, if the
    estimator is one and is well formed. *)
Definition unwrap_layer (model : estimator) : option (res estimator) :=
  if is_pipeline model then
    Some (l <- getattr "steps" (steps model) ;; last_step l)
  else if is_calibration model then
    Some (getattr "base_estimator" (base_estimator model))
  else None.

(** The unwrapper with an explicit budget of calls: [None] when the
    budget is exhausted before a result or an exception is reached. *)
Fixpoint extract_within (calls : nat) (model : estimator) : option (res estimator) :=
  match calls with
  | O => None
  | S calls' =>
    match unwrap_layer model with
    | None => Some (Ok model)
    | Some (Raise e) => Some (Raise e)
    | Some (Ok inner) => extract_within calls' inner
    end
  end.

(** Number of composition and calibration layers on the path the
    unwrapper follows. *)
Fixpoint nesting_depth (model : estimator) : nat :=
  match model with
  | Estimator model_name steps base _ _ _ _ =>
    if String.eqb model_name "Pipeline" then
      match steps with
      | None => 0
      | Some l =>
        (fix last_depth (l : list (string * estimator)) : nat :=
           match l with
           | [] => 0
           | (_, e) :: [] => S (nesting_depth e)
           | _ :: (_ :: _) as l' => last_depth l'
           end) l
      end
    else if str_in "CalibratedClassifier" model_name then
      match base with
      | None => 0
      | Some b => S (nesting_depth b)
      end
    else 0
  end.

(** ** numpy and pandas *)

(** [np.array(values, str)] on one element; numpy's formatting of a
    float64 is left to [float_str]. *)
Definition np_str (float_str : float -> string) (v : pyval) : string :=
  match v with
  | VInt z => NilZero.string_of_int (Z.to_int z)
  | VFloat x => float_str x
  | VStr s => s
  | VBool b => if b then "True" else "False"
  end.

(** [array * k] for a Python int [k] of either sign and magnitude one. *)
Definition nd_mul (a : ndarray float) (k : float) : ndarray float :=
  mk_ndarray (nd_ncols a) (map (map (fun x => f64_mul x k)) (nd_rows a)).

(** A Python dict with string keys: insertion ordered, keys unique. *)
Definition dict (V : Type) : Type := list (string * V).

(** [d[k] = v] *)
Fixpoint dict_set {V : Type} (d : dict V) (k : string) (v : V) : dict V :=
  match d with
  | [] => [(k, v)]
  | (k', v') :: d' =>
    if String.eqb k' k then (k', v) :: d' else (k', v') :: dict_set d' k v
  end.

(** [d.get(k)] *)
Fixpoint dict_get {V : Type} (d : dict V) (k : string) : option V :=
  match d with
  | [] => None
  | (k', v') :: d' => if String.eqb k' k then Some v' else dict_get d' k
  end.

(** [list(d.keys())] *)
Definition dict_keys {V : Type} (d : dict V) : list string := map fst d.

(** [dict(items)] *)
Definition dict_of_items {V : Type} (items : list (string * V)) : dict V :=
  fold_left (fun d kv => dict_set d (fst kv) (snd kv)) items [].

Definition dict_map {V W : Type} (g : V -> W) (d : dict V) : dict W :=
  map (fun kv => (fst kv, g (snd kv))) d.

(** [pd.RangeIndex(n)] *)
Definition range_index (n : nat) : list pyval :=
  map (fun i => VInt (Z.of_nat i)) (seq 0 n).

(** The rows of a numpy array all have its second dimension. *)
Definition nd_wf {A : Type} (a : ndarray A) : bool :=
  forallb (fun row => Nat.eqb (length row) (nd_ncols a)) (nd_rows a).

(** [pd.DataFrame(data, index=index, columns=columns)] on a 2-d array:
    the shape of the data must be (len(index), len(columns)). *)
Definition pd_DataFrame {A : Type} (data : ndarray A)
    (index : option (list pyval)) (columns : list string) : res (DataFrame A) :=
  let idx := match index with
             | Some i => i
             | None => range_index (length (nd_rows data))
             end in
  if Nat.eqb (length (nd_rows data)) (length idx)
     && Nat.eqb (nd_ncols data) (length columns)
     && nd_wf data
  then Ok (mkDataFrame idx columns (nd_rows data))
  else Raise (ValueError "Shape of passed values does not match the indices").

(** [df.to_dict(orient='records')] *)
Definition to_dict_records {A : Type} (df : DataFrame A) : list (dict A) :=
  map (fun row => dict_of_items (combine (df_columns df) row)) (df_rows df).

(** [df.values] *)
Definition df_values {A : Type} (df : DataFrame A) : ndarray A :=
  mk_ndarray (length (df_columns df)) (df_rows df).

(** Positions of the columns labelled [name], counted from [i]. *)
Fixpoint positions (name : string) (cols : list string) (i : nat) : list nat :=
  match cols with
  | [] => []
  | c :: cols' =>
    (if String.eqb c name then [i] else []) ++ positions name cols' (S i)
  end.

Definition pick {A : Type} (row : list A) (sel : list nat) : list A :=
  flat_map (fun i => match nth_error row i with Some v => [v] | None => [] end) sel.

(** The positions selected by [df[names]]; a label that is not a column
    raises [KeyError]. *)
Fixpoint select_columns (cols names : list string) : res (list nat) :=
  match names with
  | [] => Ok []
  | n :: names' =>
    match positions n cols 0 with
    | [] => Raise (KeyError n)
    | ps => sel <- select_columns cols names' ;; Ok (ps ++ sel)
    end
  end.

(** [df[names]] for a list of column labels *)
Definition df_getitem {A : Type} (df : DataFrame A) (names : list string)
    : res (DataFrame A) :=
  sel <- select_columns (df_columns df) names ;;
  Ok (mkDataFrame (df_index df)
        (pick (df_columns df) sel)
        (map (fun row => pick row sel) (df_rows df))).

(** [l[i]] on a Python list, for [i >= 0] *)
Definition list_getitem {A : Type} (l : list A) (i : nat) : res A :=
  match nth_error l i with
  | Some v => Ok v
  | None => Raise (IndexError "list index out of range")
  end.

(** [enumerate(l)] *)
Definition enumerate {A : Type} (l : list A) : list (nat * A) :=
  combine (seq 0 (length l)) l.

(** ** The attribution capability (shap) *)

(** Keyword arguments of [shap.TreeExplainer]; [sp_data] is [None] when
    the [data] keyword is not passed. *)
Record shap_params : Type := mk_shap_params {
  sp_data : option (DataFrame pyval);
  sp_feature_dependence : string;
  sp_model_output : string
}.

(** What is handed to [explainer.shap_values]: a DataFrame or its
    [.values]. *)
Inductive shap_input : Type :=
| AsDataFrame (df : DataFrame pyval)
| AsArray (a : ndarray pyval).

(** What [explainer.shap_values] returns: a Python list of arrays, one
    array, or an object of another class. *)
Inductive shap_raw : Type :=
| ShapList (l : list (ndarray float))
| ShapArray (a : ndarray float)
| ShapOther (class_name : string).

(** A Python object held in a cell of a frame, known by its repr. *)
Inductive pyobject : Type :=
| PyObject (repr : string).

(** The libraries the module calls into: shap's tree explainer; numpy's
    rendering of a float64 as text; and pandas's
    [DataFrame(data, index=index, columns=columns)] on data other than a
    2-d array or an empty list.  On such data (None, a scalar or another
    object, a list of arrays) pandas either raises or builds a frame with
    that index and those columns; [pd_DataFrame_object] gives, in the
    second case, the cell at each row and column position. *)
Record External : Type := mkExternal {
  shap_explainer : Type;
  shap_TreeExplainer : estimator -> shap_params -> res shap_explainer;
  shap_values : shap_explainer -> shap_input -> res shap_raw;
  np_float_str : float -> string;
  pd_DataFrame_object :
    shap_raw -> list pyval -> list string -> res (nat -> nat -> pyobject)
}.

(** Calls made to the attribution capability, in order. *)
Inductive call : Type :=
| TreeExplainerCall (predictor : estimator) (params : shap_params)
| ShapValuesCall (input : shap_input).

(** A computation that may call the attribution capability: the calls
    it made, and how it ended. *)
Definition io (A : Type) : Type := (list call * res A)%type.

Definition calls {A : Type} (c : io A) : list call := fst c.
Definition returned {A : Type} (c : io A) : res A := snd c.

Definition lift {A : Type} (r : res A) : io A := ([], r).

Definition io_bind {A B : Type} (c : io A) (k : A -> io B) : io B :=
  match snd c with
  | Ok a => (fst c ++ fst (k a), snd (k a))
  | Raise e => (fst c, Raise e)
  end.

Notation "x <~ c ;; k" := (io_bind c (fun x => k))
  (at level 61, c at next level, right associativity).

Definition call_TreeExplainer (X : External) (predictor : estimator)
    (params : shap_params) : io (shap_explainer X) :=
  ([TreeExplainerCall predictor params], shap_TreeExplainer X predictor params).

Definition call_shap_values (X : External) (explainer : shap_explainer X)
    (input : shap_input) : io shap_raw :=
  ([ShapValuesCall input], shap_values X explainer input).

(** ** The model *)

(** What a caller passes as [features] or [samples]: one record, a list
    of records, or an already tabular value. *)
Inductive request : Type :=
| ReqRecord (r : dict pyval)
| ReqBatch (rs : list (dict pyval))
| ReqFrame (df : DataFrame pyval).

(** Number of records of a request. *)
Definition request_size (r : request) : nat :=
  match r with
  | ReqRecord _ => 1
  | ReqBatch rs => length rs
  | ReqFrame df => length (df_rows df)
  end.

(** A loaded [SklearnModel].  The class inherits its state and the
    helpers [_is_ready], [_get_task], [_validate], [_feature_names],
    [_get_predictor_type] and the [_is_...] properties from [BaseModel]
    (src/model/base.py); they are taken here as given: each field is what
    the helper of that name returns, and [metadata_class_names] is the
    list of class names the metadata declares, if it declares one. *)
Record SklearnModel : Type := mkSklearnModel {
  _is_ready : bool;
  _get_task : string;
  _is_explainable : bool;
  _is_classification : bool;
  _is_binary_classification : bool;
  _feature_names : list string;
  _get_predictor_type : string;
  metadata_class_names : option (list string);
  _validate : request -> res (DataFrame pyval);
  _model : estimator
}.

(** Modelled from the spec: the decorator [_check] of src/model/base.py,
    which is not among the sources.  It raises the not-ready error when no
    artifact is loaded, the unsupported-model error when [explainable] is
    asked for and the base predictor is outside the explainable families,
    and the unsupported-task error when [task] is given and differs from
    the model's task; otherwise the decorated method runs. *)
Definition _check (explainable : bool) (task : option string)
    (self : SklearnModel) : res unit :=
  if negb (_is_ready self) then Raise (RuntimeError "NotReadyError")
  else if explainable && negb (_is_explainable self)
  then Raise (ValueError "UnsupportedModelError")
  else match task with
       | Some t =>
         if String.eqb (_get_task self) t then Ok tt
         else Raise (RuntimeError "UnsupportedTaskError")
       | None => Ok tt
       end.

(** [SklearnModel._explainable_models] *)
Definition _explainable_models : list string :=
  [ "DecisionTreeClassifier"; "DecisionTreeRegressor";
    "RandomForestClassifier"; "RandomForestRegressor";
    "XGBClassifier"; "XGBRegressor"; "Booster";
    "CatBoostClassifier"; "CatBoostRegressor";
    "LGBMClassifier"; "LGBMRegressor" ].

(** [SklearnModel._get_predictor] *)
Definition _get_predictor (self : SklearnModel) : res estimator :=
  _ <- _check false None self ;;
  _extract_base_predictor (_model self).

(** [SklearnModel._get_class_names] *)
Definition _get_class_names (X : External) (self : SklearnModel)
    : res (list string) :=
  _ <- _check false (Some "classification") self ;;
  predictor <- _get_predictor self ;;
  classes <- getattr "classes_" (classes_ predictor) ;;
  Ok (map (np_str (np_float_str X)) classes).

(** [SklearnModel.preprocess] *)
Definition preprocess (self : SklearnModel) (features : request)
    : res (DataFrame pyval) :=
  _ <- _check false None self ;;
  input <- _validate self features ;;
  match transform (_model self) with
  | Some model_transform => model_transform input
  | None => Ok input
  end.

(** [SklearnModel.predict] *)
Definition predict (self : SklearnModel) (features : request)
    : res (list pyval) :=
  _ <- _check false None self ;;
  input <- _validate self features ;;
  model_predict <- getattr "predict" (est_predict (_model self)) ;;
  result <- model_predict input ;;
  Ok result.

(** [SklearnModel.predict_proba] *)
Definition predict_proba (X : External) (self : SklearnModel)
    (features : request) : res (list (dict float)) :=
  _ <- _check false (Some "classification") self ;;
  input <- _validate self features ;;
  model_predict_proba <- getattr "predict_proba" (est_predict_proba (_model self)) ;;
  prediction <- model_predict_proba input ;;
  class_names <- _get_class_names X self ;;
  df <- pd_DataFrame prediction None class_names ;;
  Ok (to_dict_records df).

(** ** Explanations *)

(** What [explain] returns: for classification a dict from class name to
    the records of that class, for regression the records, of floats when
    the frame was built from an array and of objects when pandas built it
    from something else. *)
Inductive attribution : Type :=
| ByClass (result : dict (list (dict float)))
| ByRecord (result : list (dict float))
| ByRecordOf (result : list (dict pyobject)).

(** The keyword arguments of the explainer (the [if samples is None]
    block). *)
Definition explain_params (self : SklearnModel) (samples : option request)
    : res shap_params :=
  match samples with
  | None => Ok (mk_shap_params None "tree_path_dependent" "margin")
  | Some s =>
    validated <- _validate self s ;;
    data <- preprocess self (ReqFrame validated) ;;
    Ok (mk_shap_params (Some data) "independent" "probability")
  end.

(** First half of [explain], up to the call of [explainer.shap_values]:
    the preprocessed table and the raw attribution output. *)
Definition explain_shap_values (X : External) (self : SklearnModel)
    (features : request) (samples : option request)
    : io (DataFrame pyval * shap_raw) :=
  preprocessed <~ lift (preprocess self features) ;;
  params <~ lift (explain_params self samples) ;;
  predictor <~ lift (_get_predictor self) ;;
  explainer <~ call_TreeExplainer X predictor params ;;
  let colnames := _feature_names self in
  input_data <~ lift (df_getitem preprocessed colnames) ;;
  let predictor_type := _get_predictor_type self in
  let use_pandas := any_in ["LGBMClassifier"; "LGBMRegressor"] predictor_type in
  shap_values <~ call_shap_values X explainer
                   (if use_pandas then AsDataFrame input_data
                    else AsArray (df_values input_data)) ;;
  lift (Ok (preprocessed, shap_values)).

Definition isinstance_list (v : shap_raw) : bool :=
  match v with ShapList _ => true | _ => false end.

Definition isinstance_ndarray (v : shap_raw) : bool :=
  match v with ShapArray _ => true | _ => false end.

(** [_values] of one turn of the loop over [enumerate(class_names)]:
    [shap_values * (-1 if i == 0 else 1)] or [shap_values[i]].  The flag
    is set only for an array and cleared only for a list. *)
Definition class_values (shap_values : shap_raw) (process_shap_values : bool)
    (i : nat) : res (ndarray float) :=
  match shap_values, process_shap_values with
  | ShapArray a, true => Ok (nd_mul a (f64_of_sign (Nat.eqb i 0)))
  | ShapList l, false => list_getitem l i
  | _, _ => Raise (TypeError "unsupported operand")
  end.

(** The loop [for i, c in enumerate(class_names)] filling [result]. *)
Fixpoint format_classes (shap_values : shap_raw) (process_shap_values : bool)
    (index : list pyval) (colnames : list string)
    (items : list (nat * string)) (result : dict (list (dict float)))
    : res (dict (list (dict float))) :=
  match items with
  | [] => Ok result
  | (i, c) :: items' =>
    _values <- class_values shap_values process_shap_values i ;;
    df <- pd_DataFrame _values (Some index) colnames ;;
    format_classes shap_values process_shap_values index colnames items'
      (dict_set result c (to_dict_records df))
  end.

(** The frame with the given index and columns whose cell at row [i]
    and column [j] is [cells i j]. *)
Definition frame_of_cells {A : Type} (index : list pyval) (columns : list string)
    (cells : nat -> nat -> A) : DataFrame A :=
  mkDataFrame index columns
    (map (fun i => map (fun j => cells i j) (seq 0 (length columns)))
         (seq 0 (length index))).

(** [pd.DataFrame(shap_values, index=index, columns=colnames)] on the raw
    output: an array is checked against the shape and gives a frame of
    floats; an empty list gives a frame filled with NaN; for anything else
    pandas raises or builds a frame of objects over the index and the
    columns. *)
Definition pd_DataFrame_raw (X : External) (shap_values : shap_raw)
    (index : list pyval) (colnames : list string)
    : res (DataFrame float + DataFrame pyobject) :=
  match shap_values with
  | ShapArray a => df <- pd_DataFrame a (Some index) colnames ;; Ok (inl df)
  | ShapList [] =>
    Ok (inl (mkDataFrame index colnames
               (map (fun _ => map (fun _ => S754_nan) colnames) index)))
  | _ =>
    cells <- pd_DataFrame_object X shap_values index colnames ;;
    Ok (inr (frame_of_cells index colnames cells))
  end.

(** Second half of [explain]: the raw output turned into the result. *)
Definition explain_format (X : External) (self : SklearnModel)
    (preprocessed : DataFrame pyval) (shap_values : shap_raw)
    : res attribution :=
  let colnames := _feature_names self in
  let index := df_index preprocessed in
  if _is_classification self then
    class_names <- _get_class_names X self ;;
    process_shap_values <-
      (if isinstance_list shap_values then Ok false
       else if isinstance_ndarray shap_values && _is_binary_classification self
       then Ok true
       else Raise (ValueError "Unknown objet class for shap_values variable")) ;;
    result <- format_classes shap_values process_shap_values index colnames
                (enumerate class_names) [] ;;
    Ok (ByClass result)
  else
    df <- pd_DataFrame_raw X shap_values index colnames ;;
    Ok (match df with
        | inl floats => ByRecord (to_dict_records floats)
        | inr objects => ByRecordOf (to_dict_records objects)
        end).

(** [SklearnModel.explain] *)
Definition explain (X : External) (self : SklearnModel)
    (features : request) (samples : option request) : io attribution :=
  _ <~ lift (_check true None self) ;;
  computed <~ explain_shap_values X self features samples ;;
  lift (explain_format X self (fst computed) (snd computed)).

(** The argument of [explainer.shap_values] in [explain], for the
    selection [input_data] of the feature columns. *)
Definition shap_argument (self : SklearnModel) (input_data : DataFrame pyval)
    : shap_input :=
  if any_in ["LGBMClassifier"; "LGBMRegressor"] (_get_predictor_type self)
  then AsDataFrame input_data
  else AsArray (df_values input_data).

(** The attribution of feature [f] for record number [i] of class [c]. *)
Definition attrib (d : dict (list (dict float))) (c : string) (i : nat)
    (f : string) : option float :=
  match dict_get d c with
  | Some records =>
    match nth_error records i with
    | Some record => dict_get record f
    | None => None
    end
  | None => None
  end.

(** The records [recs] with every value negated. *)
Definition negate_records (recs : list (dict float)) : list (dict float) :=
  map (dict_map f64_neg) recs.

(** The keys of every per-record mapping of a result. *)
Definition mapping_keys (r : attribution) : list (list string) :=
  match r with
  | ByClass d => map dict_keys (concat (map snd d))
  | ByRecord l => map dict_keys l
  | ByRecordOf l => map dict_keys l
  end.

(** [len(set(l)) == len(l)] on a list of strings *)
Fixpoint distinct (l : list string) : bool :=
  match l with
  | [] => true
  | x :: l' => negb (existsb (String.eqb x) l') && distinct l'
  end.

(** ** A small artifact for the examples

    The scenario of the specification: features [age] and [color], two
    classes, one record. *)

Module Demo.

Definition f64 (m e : Z) : float := binary_normalize 53 1024 m e false.

Definition half : float := Eval cbv in f64 1 (-1).
Definition quarter : float := Eval cbv in f64 1 (-2).
Definition three_quarters : float := Eval cbv in f64 3 (-2).

Definition schema : list string := ["age"; "color"].

Fixpoint row_of_record (names : list string) (r : dict pyval) : res (list pyval) :=
  match names with
  | [] => Ok []
  | n :: names' =>
    match dict_get r n with
    | Some v => row <- row_of_record names' r ;; Ok (v :: row)
    | None => Raise (ValueError n)
    end
  end.

Fixpoint rows_of_records (names : list string) (rs : list (dict pyval))
    : res (list (list pyval)) :=
  match rs with
  | [] => Ok []
  | r :: rs' =>
    row <- row_of_record names r ;;
    rows <- rows_of_records names rs' ;;
    Ok (row :: rows)
  end.

(** A validator for the examples: one row per record, columns in the
    order of the schema, a missing feature refused. *)
Definition validate (names : list string) (req : request) : res (DataFrame pyval) :=
  match req with
  | ReqRecord r =>
    row <- row_of_record names r ;;
    Ok (mkDataFrame (range_index 1) names [row])
  | ReqBatch rs =>
    rows <- rows_of_records names rs ;;
    Ok (mkDataFrame (range_index (length rows)) names rows)
  | ReqFrame df => Ok df
  end.

Definition record : dict pyval := [("age", VInt 30); ("color", VStr "red")].

(** A decision tree fitted on the integer labels 0 and 1. *)
Definition tree : estimator :=
  Estimator "DecisionTreeClassifier" None None
    (Some [VInt 0; VInt 1])
    None
    (Some (fun df => Ok (map (fun _ => VInt 1) (df_rows df))))
    (Some (fun df => Ok (mk_ndarray 2
                           (map (fun _ => [quarter; three_quarters]) (df_rows df))))).

(** A decision tree fitted on the labels [no] and [yes]. *)
Definition named_tree : estimator :=
  Estimator "DecisionTreeClassifier" None None
    (Some [VStr "no"; VStr "yes"])
    None
    (Some (fun df => Ok (map (fun _ => VStr "yes") (df_rows df))))
    (est_predict_proba tree).

Definition calibrated : estimator :=
  Estimator "CalibratedClassifierCV" None (Some tree)
    (Some [VInt 0; VInt 1]) None (est_predict tree) (est_predict_proba tree).

Definition scaler : estimator :=
  Estimator "StandardScaler" None None None (Some (fun df => Ok df)) None None.

Definition pipeline : estimator :=
  Estimator "Pipeline" (Some [("scaler", scaler); ("clf", calibrated)]) None
    (Some [VInt 0; VInt 1]) None (est_predict tree) (est_predict_proba tree).

Definition empty_pipeline : estimator :=
  Estimator "Pipeline" (Some []) None None None None None.

Definition forest : estimator :=
  Estimator "RandomForestRegressor" None None None None
    (Some (fun df => Ok (map (fun _ => VFloat half) (df_rows df)))) None.

(** A binary classifier behind a pipeline and a calibration layer, whose
    metadata declares the class names [no] and [yes]. *)
Definition classifier : SklearnModel :=
  mkSklearnModel true "classification" true true true schema
    "<class 'sklearn.tree.DecisionTreeClassifier'>"
    (Some ["no"; "yes"]) (validate schema) pipeline.

(** A classifier fitted on named labels, whose metadata declares no
    class names. *)
Definition undeclared_classifier : SklearnModel :=
  mkSklearnModel true "classification" true true true schema
    "<class 'sklearn.tree.DecisionTreeClassifier'>"
    None (validate schema) named_tree.

Definition regressor : SklearnModel :=
  mkSklearnModel true "regression" true false false schema
    "<class 'sklearn.ensemble.RandomForestRegressor'>"
    None (validate schema) forest.

(** An attribution capability that answers every request with [raw],
    beside a pandas that spreads an object other than a list over the
    frame and refuses a list of 2-d arrays. *)
Definition shap_returning (raw : shap_raw) : External :=
  mkExternal (fun _ _ => Ok tt) (fun _ _ => Ok raw) (fun _ => "nan")
    (fun data _ _ =>
       match data with
       | ShapOther class_name => Ok (fun _ _ => PyObject class_name)
       | _ => Raise (ValueError "Must pass 2-d input")
       end).

Definition shared_array : shap_raw :=
  ShapArray (mk_ndarray 2 [[half; f64_neg quarter]]).

Definition per_class : shap_raw :=
  ShapList [mk_ndarray 2 [[f64_neg half; quarter]];
            mk_ndarray 2 [[half; f64_neg quarter]]].

Definition background : request :=
  ReqBatch [[("age", VInt 20); ("color", VStr "blue")];
            [("age", VInt 40); ("color", VStr "red")]].

(** A pipeline whose transform keeps the [age] column only. *)
Definition dropping : estimator :=
  Estimator "Pipeline" (Some [("select", scaler); ("clf", tree)]) None
    (Some [VInt 0; VInt 1])
    (Some (fun df => Ok (mkDataFrame (df_index df) ["age"]
                           (map (firstn 1) (df_rows df)))))
    (est_predict tree) (est_predict_proba tree).

Definition lossy_classifier : SklearnModel :=
  mkSklearnModel true "classification" true true true schema
    "<class 'sklearn.tree.DecisionTreeClassifier'>"
    None (validate schema) dropping.

(** A calibration wrapper declaring three classes, and answering with
    three columns, around the tree fitted on two. *)
Definition wide : estimator :=
  Estimator "CalibratedClassifierCV" None (Some tree)
    (Some [VInt 0; VInt 1; VInt 2]) None (est_predict tree)
    (Some (fun df => Ok (mk_ndarray 3
                           (map (fun _ => [quarter; quarter; half]) (df_rows df))))).

Definition wide_classifier : SklearnModel :=
  mkSklearnModel true "classification" true true true schema
    "<class 'sklearn.tree.DecisionTreeClassifier'>"
    None (validate schema) wide.

(** A record without the [color] feature. *)
Definition partial_record : dict pyval := [("age", VInt 30)].

End Demo.

(** [int(s)] on the text of a decimal integer *)
Definition parse_int (s : string) : option Z :=
  option_map Z.of_int (NilZero.int_of_string s).

(** * Properties *)

(** ** The error monad *)

Lemma bind_ok {A B : Type} (c : res A) (k : A -> res B) (b : B) :
  bind c k = Ok b -> exists a, c = Ok a /\ k a = Ok b.
Proof.
  destruct c as [a|e]; simpl; intros H; [eauto | discriminate].
Qed.

Lemma returned_bind {A B : Type} (c : io A) (k : A -> io B) :
  returned (io_bind c k) = bind (returned c) (fun a => returned (k a)).
Proof.
  unfold returned, io_bind. destruct c as [t [a|e]]; reflexivity.
Qed.

Lemma calls_bind {A B : Type} (c : io A) (k : A -> io B) (x : call) :
  In x (calls (io_bind c k)) ->
  In x (calls c) \/ exists a, returned c = Ok a /\ In x (calls (k a)).
Proof.
  unfold calls, returned, io_bind. destruct c as [t [a|e]]; simpl.
  - rewrite in_app_iff. intros [H|H]; eauto.
  - auto.
Qed.

(** Splits a hypothesis [bind c k = Ok b] into the two steps. *)
Ltac bind_inv H :=
  let a := fresh "a" in
  let H1 := fresh H "_step" in
  apply bind_ok in H; destruct H as (a & H1 & H).

(** ** The estimator unwrapper *)

Lemma inner_last_step (l : list (string * estimator)) :
  (fix last_step (l : list (string * estimator)) : res estimator :=
     match l with
     | [] => Raise (IndexError "list index out of range")
     | (_, e) :: [] => _extract_base_predictor e
     | _ :: (_ :: _) as l' => last_step l'
     end) l
  = (e <- last_step l ;; _extract_base_predictor e).
Proof.
  induction l as [|[n e] [|q l'] IH]; try reflexivity.
  exact IH.
Qed.

Lemma inner_last_depth (l : list (string * estimator)) :
  (fix last_depth (l : list (string * estimator)) : nat :=
     match l with
     | [] => 0
     | (_, e) :: [] => S (nesting_depth e)
     | _ :: (_ :: _) as l' => last_depth l'
     end) l
  = match last_step l with Ok e => S (nesting_depth e) | Raise _ => 0 end.
Proof.
  induction l as [|[n e] [|q l'] IH]; try reflexivity.
  exact IH.
Qed.

(** One unfolding of the recursion, layer by layer. *)
Lemma extract_unfold (model : estimator) :
  _extract_base_predictor model =
  match unwrap_layer model with
  | None => Ok model
  | Some (Raise e) => Raise e
  | Some (Ok inner) => _extract_base_predictor inner
  end.
Proof.
  destruct model as [n s b c t p pp].
  unfold unwrap_layer, is_pipeline, is_calibration; simpl.
  destruct (String.eqb n "Pipeline").
  - destruct s as [l|]; simpl; [|reflexivity].
    rewrite inner_last_step. destruct (last_step l); reflexivity.
  - destruct (str_in "CalibratedClassifier" n); [|reflexivity].
    destruct b; reflexivity.
Qed.

Lemma depth_unfold (model : estimator) :
  nesting_depth model =
  match unwrap_layer model with
  | Some (Ok inner) => S (nesting_depth inner)
  | _ => 0
  end.
Proof.
  destruct model as [n s b c t p pp].
  unfold unwrap_layer, is_pipeline, is_calibration; simpl.
  destruct (String.eqb n "Pipeline").
  - destruct s as [l|]; simpl; [|reflexivity].
    rewrite inner_last_depth. destruct (last_step l); reflexivity.
  - destruct (str_in "CalibratedClassifier" n); [|reflexivity].
    destruct b; reflexivity.
Qed.

(** Induction along the path the unwrapper follows. *)
Lemma unwrap_ind (P : estimator -> Prop) :
  (forall m, unwrap_layer m = None -> P m) ->
  (forall m e, unwrap_layer m = Some (Raise e) -> P m) ->
  (forall m inner, unwrap_layer m = Some (Ok inner) -> P inner -> P m) ->
  forall m, P m.
Proof.
  intros Hplain Hraise Hstep m.
  remember (nesting_depth m) as d eqn:Hd.
  revert m Hd. induction d as [|d IH]; intros m Hd.
  - rewrite depth_unfold in Hd.
    destruct (unwrap_layer m) as [[inner|e]|] eqn:Hu; eauto; discriminate.
  - rewrite depth_unfold in Hd.
    destruct (unwrap_layer m) as [[inner|e]|] eqn:Hu; try discriminate.
    apply (Hstep m inner Hu). apply IH. congruence.
Qed.

Lemma unwrap_layer_plain (m : estimator) :
  unwrap_layer m = None <-> is_pipeline m = false /\ is_calibration m = false.
Proof.
  unfold unwrap_layer.
  destruct (is_pipeline m), (is_calibration m); split;
    try discriminate; try tauto; intros [? ?]; discriminate.
Qed.

Lemma extract_plain (m r : estimator) :
  _extract_base_predictor m = Ok r ->
  is_pipeline r = false /\ is_calibration r = false.
Proof.
  revert r. induction m as [m Hu|m e Hu|m inner Hu IH] using unwrap_ind;
    intros r; rewrite extract_unfold, Hu.
  - intros [= <-]. now apply unwrap_layer_plain.
  - discriminate.
  - apply IH.
Qed.

Lemma extract_within_depth (m : estimator) :
  extract_within (S (nesting_depth m)) m = Some (_extract_base_predictor m).
Proof.
  induction m as [m Hu|m e Hu|m inner Hu IH] using unwrap_ind;
    rewrite extract_unfold, depth_unfold; cbn [extract_within]; rewrite Hu;
    try reflexivity.
  exact IH.
Qed.

Lemma extract_of_plain (m : estimator) :
  is_pipeline m = false -> is_calibration m = false ->
  _extract_base_predictor m = Ok m.
Proof.
  intros Hp Hc. rewrite extract_unfold.
  now rewrite (proj2 (unwrap_layer_plain m) (conj Hp Hc)).
Qed.


(** C5: the unwrapper terminates, within one call per layer of nesting
    plus one; its result, when it returns one, is neither a Pipeline nor
    a calibration wrapper; and a Pipeline with no steps raises at once
    instead of returning something. *)
Theorem extract_base_predictor_terminates (model : estimator) :
  extract_within (S (nesting_depth model)) model
    = Some (_extract_base_predictor model)
  /\ (forall r, _extract_base_predictor model = Ok r ->
        is_pipeline r = false /\ is_calibration r = false)
  /\ (forall b c t p pp,
        _extract_base_predictor (Estimator "Pipeline" (Some []) b c t p pp)
          = Raise (IndexError "list index out of range")).
Proof.
  split; [apply extract_within_depth|].
  split; [intros r; apply extract_plain|].
  reflexivity.
Qed.

Lemma extract_base_predictor_terminates_witness :
  extract_within 3 Demo.pipeline = Some (Ok Demo.tree)
  /\ is_pipeline Demo.tree = false /\ is_calibration Demo.tree = false.
Proof.
  split.
  - exact (proj1 (extract_base_predictor_terminates Demo.pipeline)).
  - apply (proj1 (proj2 (extract_base_predictor_terminates Demo.pipeline))).
    reflexivity.
Defined.

(** C6: unwrapping is idempotent, and an estimator that is neither a
    Pipeline nor a calibration wrapper is returned as it is. *)
Theorem extract_base_predictor_idempotent (x : estimator) :
  (r <- _extract_base_predictor x ;; _extract_base_predictor r)
    = _extract_base_predictor x
  /\ (is_pipeline x = false -> is_calibration x = false ->
      _extract_base_predictor x = Ok x).
Proof.
  split; [|apply extract_of_plain].
  destruct (_extract_base_predictor x) as [r|e] eqn:Hx; simpl; [|reflexivity].
  apply extract_plain in Hx. destruct Hx. now apply extract_of_plain.
Qed.

Lemma extract_base_predictor_idempotent_witness :
  _extract_base_predictor Demo.tree = Ok Demo.tree
  /\ (r <- _extract_base_predictor Demo.pipeline ;; _extract_base_predictor r)
       = _extract_base_predictor Demo.pipeline.
Proof.
  split.
  - apply (proj2 (extract_base_predictor_idempotent Demo.tree)); reflexivity.
  - exact (proj1 (extract_base_predictor_idempotent Demo.pipeline)).
Defined.

(** ** Dicts *)

Lemma distinct_NoDup (l : list string) : distinct l = true <-> NoDup l.
Proof.
  induction l as [|x l IH]; simpl.
  - split; [constructor | reflexivity].
  - rewrite andb_true_iff, negb_true_iff, IH. split.
    + intros [Hx Hl]. constructor; [|exact Hl].
      intros Hin. assert (existsb (String.eqb x) l = true) as E.
      { apply existsb_exists. exists x. split; [exact Hin | apply String.eqb_refl]. }
      congruence.
    + intros H. inversion H as [|? ? Hx Hl]; subst. split; [|exact Hl].
      destruct (existsb (String.eqb x) l) eqn:E; [|reflexivity].
      apply existsb_exists in E. destruct E as (y & Hy & Hxy).
      apply String.eqb_eq in Hxy. subst. contradiction.
Qed.

Lemma dict_set_fresh {V : Type} (d : dict V) (k : string) (v : V) :
  ~ In k (dict_keys d) -> dict_set d k v = d ++ [(k, v)].
Proof.
  induction d as [|[k' v'] d IH]; simpl; intros Hk; [reflexivity|].
  destruct (String.eqb k' k) eqn:E.
  - apply String.eqb_eq in E. tauto.
  - rewrite IH; [reflexivity | tauto].
Qed.

Lemma dict_keys_set {V : Type} (d : dict V) (k : string) (v : V) (x : string) :
  In x (dict_keys (dict_set d k v)) <-> x = k \/ In x (dict_keys d).
Proof.
  induction d as [|[k' v'] d IH]; simpl.
  - intuition congruence.
  - destruct (String.eqb k' k) eqn:E; simpl.
    + apply String.eqb_eq in E. subst. intuition congruence.
    + rewrite IH. tauto.
Qed.

Lemma fold_set_fresh {V : Type} (items acc : dict V) :
  NoDup (dict_keys acc ++ map fst items) ->
  fold_left (fun d kv => dict_set d (fst kv) (snd kv)) items acc = acc ++ items.
Proof.
  revert acc. induction items as [|[k v] items IH]; intros acc H; simpl.
  - now rewrite app_nil_r.
  - simpl in H. rewrite dict_set_fresh.
    + rewrite IH.
      * now rewrite <- app_assoc.
      * unfold dict_keys. rewrite map_app, <- app_assoc. exact H.
    + apply NoDup_remove_2 in H. rewrite in_app_iff in H. tauto.
Qed.

Lemma dict_of_items_distinct {V : Type} (items : list (string * V)) :
  NoDup (map fst items) -> dict_of_items items = items.
Proof.
  intros H. unfold dict_of_items. now rewrite fold_set_fresh.
Qed.

Lemma fold_set_keys {V : Type} (items acc : dict V) (x : string) :
  In x (dict_keys (fold_left (fun d kv => dict_set d (fst kv) (snd kv)) items acc))
  <-> In x (dict_keys acc) \/ In x (map fst items).
Proof.
  revert acc. induction items as [|[k v] items IH]; intros acc; simpl.
  - tauto.
  - rewrite IH, dict_keys_set. intuition congruence.
Qed.

Lemma dict_of_items_keys {V : Type} (items : list (string * V)) (x : string) :
  In x (dict_keys (dict_of_items items)) <-> In x (map fst items).
Proof.
  unfold dict_of_items. rewrite fold_set_keys. simpl. tauto.
Qed.

Lemma dict_map_set {V W : Type} (g : V -> W) (d : dict V) (k : string) (v : V) :
  dict_map g (dict_set d k v) = dict_set (dict_map g d) k (g v).
Proof.
  induction d as [|[k' v'] d IH]; simpl; [reflexivity|].
  destruct (String.eqb k' k); simpl; [reflexivity|].
  now rewrite <- IH.
Qed.

Lemma dict_map_of_items {V W : Type} (g : V -> W) (items : list (string * V)) :
  dict_of_items (dict_map g items) = dict_map g (dict_of_items items).
Proof.
  unfold dict_of_items.
  change (@nil (string * W)) with (dict_map g (@nil (string * V))).
  generalize (@nil (string * V)) as acc.
  induction items as [|[k v] items IH]; intros acc; simpl; [reflexivity|].
  rewrite <- dict_map_set. apply IH.
Qed.

Lemma dict_get_map {V W : Type} (g : V -> W) (d : dict V) (k : string) :
  dict_get (dict_map g d) k = option_map g (dict_get d k).
Proof.
  induction d as [|[k' v'] d IH]; simpl; [reflexivity|].
  destruct (String.eqb k' k); [reflexivity | exact IH].
Qed.

Lemma combine_map_values {V W : Type} (g : V -> W) (cols : list string) (row : list V) :
  combine cols (map g row) = dict_map g (combine cols row).
Proof.
  revert row. induction cols as [|c cols IH]; intros [|v row]; simpl;
    try reflexivity.
  now rewrite IH.
Qed.

Lemma combine_keys {V : Type} (cols : list string) (row : list V) :
  length row = length cols -> map fst (combine cols row) = cols.
Proof.
  revert row. induction cols as [|c cols IH]; intros [|v row]; simpl;
    try reflexivity; try discriminate.
  intros [= H]. now rewrite IH.
Qed.

(** ** DataFrames *)

Lemma nd_wf_Forall {A : Type} (a : ndarray A) :
  nd_wf a = true <-> Forall (fun row => length row = nd_ncols a) (nd_rows a).
Proof.
  unfold nd_wf. rewrite forallb_forall, Forall_forall.
  split; intros H row Hin; apply Nat.eqb_eq; auto.
Qed.

Lemma pd_DataFrame_ok {A : Type} (data : ndarray A) (index : option (list pyval))
    (columns : list string) (df : DataFrame A) :
  pd_DataFrame data index columns = Ok df ->
  df_columns df = columns /\ df_rows df = nd_rows data
  /\ length (df_rows df) = length (df_index df)
  /\ Forall (fun row => length row = length columns) (df_rows df)
  /\ (forall i, index = Some i -> df_index df = i).
Proof.
  unfold pd_DataFrame.
  destruct (_ && _) eqn:E; [|discriminate].
  intros [= <-]; simpl.
  apply andb_true_iff in E. destruct E as [E Hwf].
  apply andb_true_iff in E. destruct E as [Hlen Hcols].
  apply Nat.eqb_eq in Hlen. apply Nat.eqb_eq in Hcols.
  apply nd_wf_Forall in Hwf. rewrite Hcols in Hwf.
  repeat split; auto.
  intros i ->. reflexivity.
Qed.

(** The records of a frame whose columns are distinct carry exactly the
    columns as keys, in order, one record per row. *)
Lemma to_dict_records_keys {A : Type} (df : DataFrame A) :
  NoDup (df_columns df) ->
  Forall (fun row => length row = length (df_columns df)) (df_rows df) ->
  Forall (fun m => dict_keys m = df_columns df) (to_dict_records df).
Proof.
  intros Hnd Hrows. unfold to_dict_records. apply Forall_map.
  apply Forall_forall. intros row Hin.
  rewrite Forall_forall in Hrows. specialize (Hrows row Hin).
  rewrite dict_of_items_distinct.
  - unfold dict_keys. now apply combine_keys.
  - now rewrite combine_keys.
Qed.

Lemma to_dict_records_key_set {A : Type} (df : DataFrame A) :
  Forall (fun row => length row = length (df_columns df)) (df_rows df) ->
  Forall (fun m => forall k, In k (dict_keys m) <-> In k (df_columns df))
         (to_dict_records df).
Proof.
  intros Hrows. unfold to_dict_records. apply Forall_map.
  apply Forall_forall. intros row Hin k.
  rewrite Forall_forall in Hrows. specialize (Hrows row Hin).
  now rewrite dict_of_items_keys, combine_keys.
Qed.

Lemma to_dict_records_length {A : Type} (df : DataFrame A) :
  length (to_dict_records df) = length (df_rows df).
Proof. unfold to_dict_records. apply length_map. Qed.

Lemma pd_DataFrame_shape {A : Type} (data : ndarray A) (index : option (list pyval))
    (columns : list string) :
  nd_wf data = true ->
  nd_ncols data = length columns ->
  (forall i, index = Some i -> length (nd_rows data) = length i) ->
  exists idx, pd_DataFrame data index columns
              = Ok (mkDataFrame idx columns (nd_rows data)).
Proof.
  intros Hwf Hcols Hidx. unfold pd_DataFrame.
  rewrite Hwf, Hcols, Nat.eqb_refl.
  destruct index as [i|].
  - rewrite (Hidx i eq_refl), Nat.eqb_refl. simpl. eauto.
  - unfold range_index. rewrite length_map, length_seq, Nat.eqb_refl. simpl. eauto.
Qed.

(** ** The inference operations *)

Lemma check_ready (self : SklearnModel) :
  _is_ready self = true -> _check false None self = Ok tt.
Proof. unfold _check. now intros ->. Qed.

Lemma check_classification (self : SklearnModel) :
  _is_ready self = true -> _get_task self = "classification" ->
  _check false (Some "classification") self = Ok tt.
Proof. unfold _check. now intros -> ->. Qed.

Lemma get_class_names_ok (X : External) (self : SklearnModel)
    (names : list string) :
  _get_class_names X self = Ok names ->
  exists base classes,
    _extract_base_predictor (_model self) = Ok base
    /\ classes_ base = Some classes
    /\ names = map (np_str (np_float_str X)) classes.
Proof.
  unfold _get_class_names, _get_predictor. intros H.
  bind_inv H. bind_inv H. bind_inv H_step0. bind_inv H.
  injection H as <-. exists a0, a2. repeat split; auto.
  destruct (classes_ a0); [now injection H_step1 as -> | discriminate].
Qed.

Lemma get_class_names_intro (X : External) (self : SklearnModel)
    (base : estimator) (classes : list pyval) :
  _is_ready self = true -> _get_task self = "classification" ->
  _extract_base_predictor (_model self) = Ok base ->
  classes_ base = Some classes ->
  _get_class_names X self = Ok (map (np_str (np_float_str X)) classes).
Proof.
  intros Hr Ht Hb Hc. unfold _get_class_names, _get_predictor.
  rewrite check_classification, check_ready by assumption. simpl.
  rewrite Hb. simpl. rewrite Hc. reflexivity.
Qed.

(** C3: [predict] hands back what the estimator's own [predict] returned
    and never consults the class names of the metadata: two models that
    differ in that metadata only answer alike.  On the example artifact,
    whose estimator was fitted on the labels 0 and 1 and whose metadata
    declares the names [no] and [yes], the answer for the record is the
    integer 1 and not a declared name; and on an artifact without declared
    names whose estimator was fitted on named labels, the answer is a
    name and not an integer. *)
Theorem predict_ignores_class_name_metadata :
  (forall ready task expl cls bin names ptype md1 md2 validate model features,
      predict (mkSklearnModel ready task expl cls bin names ptype md1 validate model)
              features
      = predict (mkSklearnModel ready task expl cls bin names ptype md2 validate model)
                features)
  /\ (metadata_class_names Demo.classifier = Some ["no"; "yes"]
      /\ predict Demo.classifier (ReqRecord Demo.record) = Ok [VInt 1])
  /\ (metadata_class_names Demo.undeclared_classifier = None
      /\ predict Demo.undeclared_classifier (ReqRecord Demo.record)
         = Ok [VStr "yes"]).
Proof.
  repeat split.
Qed.

(** C4: on a classification model that is ready, for a batch the
    validator accepts with one row per record, and an estimator whose
    probabilities come as one row per record and one column per class of
    the base predictor, [predict_proba] returns one mapping per record, and
    the keys of each are the classes of the unwrapped base predictor, in
    their order, in text form. *)
Theorem predict_proba_keys (X : External) (self : SklearnModel)
    (features : request) (input : DataFrame pyval)
    (model_predict_proba : DataFrame pyval -> res (ndarray float))
    (prediction : ndarray float) (base : estimator) (classes : list pyval) :
  _is_ready self = true ->
  _get_task self = "classification" ->
  _validate self features = Ok input ->
  length (df_rows input) = request_size features ->
  est_predict_proba (_model self) = Some model_predict_proba ->
  model_predict_proba input = Ok prediction ->
  nd_wf prediction = true ->
  nd_ncols prediction = length classes ->
  length (nd_rows prediction) = length (df_rows input) ->
  _extract_base_predictor (_model self) = Ok base ->
  classes_ base = Some classes ->
  distinct (map (np_str (np_float_str X)) classes) = true ->
  exists result,
    predict_proba X self features = Ok result
    /\ length result = request_size features
    /\ Forall (fun m => dict_keys m = map (np_str (np_float_str X)) classes) result.
Proof.
  intros Hr Ht Hv Hn Hpp Hp Hwf Hcols Hrows Hb Hc Hd.
  unfold predict_proba.
  rewrite check_classification by assumption. simpl.
  rewrite Hv. simpl. rewrite Hpp. simpl. rewrite Hp. simpl.
  rewrite (get_class_names_intro X self Hr Ht Hb Hc). simpl.
  destruct (@pd_DataFrame_shape _ prediction None
              (map (np_str (np_float_str X)) classes)) as [idx Hdf];
    [assumption | now rewrite length_map | discriminate |].
  rewrite Hdf. simpl. eexists. split; [reflexivity|]. split.
  - rewrite to_dict_records_length. simpl. congruence.
  - match goal with
    | |- Forall _ (to_dict_records ?d) => apply (to_dict_records_keys d)
    end; simpl.
    + now apply distinct_NoDup.
    + apply nd_wf_Forall in Hwf. rewrite Hcols in Hwf.
      now rewrite length_map.
Qed.

Lemma predict_proba_keys_witness :
  exists result,
    predict_proba (Demo.shap_returning Demo.shared_array) Demo.classifier
      (ReqBatch [Demo.record; Demo.record]) = Ok result
    /\ length result = 2
    /\ Forall (fun m => dict_keys m = ["0"; "1"]) result.
Proof.
  eapply (@predict_proba_keys (Demo.shap_returning Demo.shared_array)
            Demo.classifier (ReqBatch [Demo.record; Demo.record])
            _ _ _ Demo.tree [VInt 0; VInt 1]); reflexivity.
Defined.

(** ** The attribution engine: calls made to the capability *)

Lemma shap_stage_calls (X : External) (self : SklearnModel)
    (features : request) (samples : option request) (c : call) :
  In c (calls (explain_shap_values X self features samples)) ->
  exists preprocessed params predictor,
    preprocess self features = Ok preprocessed
    /\ explain_params self samples = Ok params
    /\ _get_predictor self = Ok predictor
    /\ (c = TreeExplainerCall predictor params
        \/ exists explainer input_data,
             shap_TreeExplainer X predictor params = Ok explainer
             /\ df_getitem preprocessed (_feature_names self) = Ok input_data
             /\ c = ShapValuesCall (shap_argument self input_data)).
Proof.
  unfold explain_shap_values. intros H.
  apply calls_bind in H. destruct H as [[]|(pre & Hpre & H)].
  apply calls_bind in H. destruct H as [[]|(params & Hparams & H)].
  apply calls_bind in H. destruct H as [[]|(predictor & Hpred & H)].
  exists pre, params, predictor. repeat (split; [assumption|]).
  apply calls_bind in H. destruct H as [[H|[]]|(explainer & Hex & H)];
    [left; now symmetry|].
  apply calls_bind in H. destruct H as [[]|(input_data & Hin & H)].
  apply calls_bind in H. destruct H as [[H|[]]|(sv & Hsv & [])].
  right. exists explainer, input_data. repeat split; auto.
Qed.

Lemma explain_calls (X : External) (self : SklearnModel)
    (features : request) (samples : option request) (c : call) :
  In c (calls (explain X self features samples)) ->
  In c (calls (explain_shap_values X self features samples)).
Proof.
  unfold explain. intros H.
  apply calls_bind in H. destruct H as [[]|([] & _ & H)].
  apply calls_bind in H. destruct H as [H|(computed & _ & [])].
  exact H.
Qed.

(** The calls of a run whose steps up to the explainer's construction
    succeed. *)
Lemma explain_calls_ok (X : External) (self : SklearnModel)
    (features : request) (samples : option request)
    (preprocessed input_data : DataFrame pyval) (params : shap_params)
    (predictor : estimator) (explainer : shap_explainer X) :
  _check true None self = Ok tt ->
  preprocess self features = Ok preprocessed ->
  explain_params self samples = Ok params ->
  _get_predictor self = Ok predictor ->
  shap_TreeExplainer X predictor params = Ok explainer ->
  df_getitem preprocessed (_feature_names self) = Ok input_data ->
  calls (explain X self features samples)
  = [TreeExplainerCall predictor params;
     ShapValuesCall (shap_argument self input_data)].
Proof.
  intros Hc Hpre Hpar Hpred Hex Hin.
  unfold explain, explain_shap_values, call_TreeExplainer, call_shap_values,
    shap_argument, io_bind, lift, calls.
  cbn [fst snd]. rewrite Hc. cbn [fst snd app].
  rewrite Hpre. cbn [fst snd app]. rewrite Hpar. cbn [fst snd app].
  rewrite Hpred. cbn [fst snd app]. rewrite Hex. cbn [fst snd app].
  rewrite Hin. cbn [fst snd app].
  match goal with |- context [shap_values X ?e ?i] =>
    destruct (shap_values X e i) end; reflexivity.
Qed.

Lemma explain_calls_explainer (X : External) (self : SklearnModel)
    (features : request) (samples : option request)
    (preprocessed : DataFrame pyval) (params : shap_params)
    (predictor : estimator) :
  _check true None self = Ok tt ->
  preprocess self features = Ok preprocessed ->
  explain_params self samples = Ok params ->
  _get_predictor self = Ok predictor ->
  In (TreeExplainerCall predictor params) (calls (explain X self features samples)).
Proof.
  intros Hc Hpre Hpar Hpred.
  unfold explain, explain_shap_values, call_TreeExplainer, call_shap_values,
    io_bind, lift, calls.
  cbn [fst snd]. rewrite Hc. cbn [fst snd app].
  rewrite Hpre. cbn [fst snd app]. rewrite Hpar. cbn [fst snd app].
  rewrite Hpred. cbn [fst snd app].
  destruct (shap_TreeExplainer X predictor params); cbn [fst snd app].
  - destruct (df_getitem _ _); cbn [fst snd app]; [|now left].
    match goal with |- context [shap_values X ?e ?i] =>
      destruct (shap_values X e i) end; now left.
  - now left.
Qed.

(** C7: every construction of the explainer made by [explain] carries
    parameters fixed by the presence of [samples] alone: without samples,
    margin output under the tree-path-dependent policy and no data; with
    samples, probability output under the independent policy, with the
    validated and then preprocessed samples as data.  The construction is
    requested whenever the steps before it succeed. *)
Theorem explain_selects_params (X : External) (self : SklearnModel)
    (features : request) (samples : option request) :
  (forall predictor params,
      In (TreeExplainerCall predictor params)
         (calls (explain X self features samples)) ->
      match samples with
      | None => params = mk_shap_params None "tree_path_dependent" "margin"
      | Some s =>
        exists validated data,
          _validate self s = Ok validated
          /\ preprocess self (ReqFrame validated) = Ok data
          /\ params = mk_shap_params (Some data) "independent" "probability"
      end)
  /\ (forall preprocessed params predictor,
        _check true None self = Ok tt ->
        preprocess self features = Ok preprocessed ->
        explain_params self samples = Ok params ->
        _get_predictor self = Ok predictor ->
        In (TreeExplainerCall predictor params)
           (calls (explain X self features samples))).
Proof.
  split; [|intros; eapply explain_calls_explainer; eassumption].
  intros predictor params H.
  apply explain_calls, shap_stage_calls in H.
  destruct H as (pre & params' & predictor' & _ & Hpar & _ & H).
  destruct H as [H|(? & ? & _ & _ & H)]; [|discriminate].
  injection H as -> ->.
  unfold explain_params in Hpar. destruct samples as [s|].
  - bind_inv Hpar. bind_inv Hpar. injection Hpar as <-. eauto.
  - now injection Hpar as <-.
Qed.

Lemma explain_selects_params_witness :
  exists validated data,
    _validate Demo.classifier Demo.background = Ok validated
    /\ preprocess Demo.classifier (ReqFrame validated) = Ok data
    /\ mk_shap_params
         (Some (mkDataFrame [VInt 0; VInt 1] Demo.schema
                  [[VInt 20; VStr "blue"]; [VInt 40; VStr "red"]]))
         "independent" "probability"
       = mk_shap_params (Some data) "independent" "probability".
Proof.
  apply (proj1 (explain_selects_params (Demo.shap_returning Demo.per_class)
                  Demo.classifier (ReqRecord Demo.record)
                  (Some Demo.background)) Demo.tree).
  left. reflexivity.
Defined.

(** C9: the table handed to [explainer.shap_values] is the selection of
    the feature columns of the preprocessed table, kept as a DataFrame
    when the predictor type names LGBMClassifier or LGBMRegressor and
    reduced to its bare array of values otherwise; it is handed over as
    soon as the explainer is built and the columns are selected; and among
    the explainable families, these two are the only ones served a
    DataFrame. *)
Theorem explain_input_structure (X : External) (self : SklearnModel)
    (features : request) (samples : option request) :
  (forall input,
      In (ShapValuesCall input) (calls (explain X self features samples)) ->
      exists preprocessed input_data,
        preprocess self features = Ok preprocessed
        /\ df_getitem preprocessed (_feature_names self) = Ok input_data
        /\ input =
           if any_in ["LGBMClassifier"; "LGBMRegressor"] (_get_predictor_type self)
           then AsDataFrame input_data
           else AsArray (df_values input_data))
  /\ (forall preprocessed input_data params predictor explainer,
        _check true None self = Ok tt ->
        preprocess self features = Ok preprocessed ->
        explain_params self samples = Ok params ->
        _get_predictor self = Ok predictor ->
        shap_TreeExplainer X predictor params = Ok explainer ->
        df_getitem preprocessed (_feature_names self) = Ok input_data ->
        In (ShapValuesCall
              (if any_in ["LGBMClassifier"; "LGBMRegressor"] (_get_predictor_type self)
               then AsDataFrame input_data
               else AsArray (df_values input_data)))
           (calls (explain X self features samples)))
  /\ (forall family,
        In family _explainable_models ->
        any_in ["LGBMClassifier"; "LGBMRegressor"] family
        = String.eqb family "LGBMClassifier" || String.eqb family "LGBMRegressor").
Proof.
  split; [|split].
  - intros input H.
    apply explain_calls, shap_stage_calls in H.
    destruct H as (pre & params & predictor & Hpre & _ & _ & H).
    destruct H as [H|(ex & input_data & _ & Hin & H)]; [discriminate|].
    injection H as ->. exists pre, input_data. repeat split; assumption.
  - intros pre input_data params predictor explainer Hc Hpre Hpar Hpred Hex Hin.
    rewrite (explain_calls_ok X self features samples Hc Hpre Hpar Hpred Hex Hin).
    right. left. reflexivity.
  - intros family H. simpl in H.
    repeat (destruct H as [<-|H]; [reflexivity|]). destruct H.
Qed.

Lemma explain_input_structure_witness :
  exists preprocessed input_data,
    preprocess Demo.classifier (ReqRecord Demo.record) = Ok preprocessed
    /\ df_getitem preprocessed Demo.schema = Ok input_data
    /\ AsArray (mk_ndarray 2 [[VInt 30; VStr "red"]]) = AsArray (df_values input_data).
Proof.
  apply (proj1 (explain_input_structure (Demo.shap_returning Demo.shared_array)
                  Demo.classifier (ReqRecord Demo.record) None)).
  right. left. reflexivity.
Defined.

(** ** float64 arithmetic *)

Lemma binary_round_aux_opp (prec emax : Z) (s : bool) (m e : Z) (l : location) :
  SFopp (binary_round_aux prec emax s m e l)
  = binary_round_aux prec emax (negb s) m e l.
Proof.
  unfold binary_round_aux.
  destruct (shr_fexp prec emax m e l) as [mrs' e'].
  destruct (shr_fexp prec emax _ e' loc_Exact) as [mrs'' e''].
  destruct (shr_m mrs''); simpl; try reflexivity.
  destruct (Z.leb e'' (Z.sub emax prec)); reflexivity.
Qed.

Lemma xorb_negb_r (a b : bool) : xorb a (negb b) = negb (xorb a b).
Proof. destruct a, b; reflexivity. Qed.

Lemma SFmul_opp_r (prec emax : Z) (x y : spec_float) :
  SFmul prec emax x (SFopp y) = SFopp (SFmul prec emax x y).
Proof.
  destruct x, y; simpl; rewrite ?xorb_negb_r; try reflexivity.
  now rewrite binary_round_aux_opp.
Qed.

Lemma f64_neg_involutive (x : float) : f64_neg (f64_neg x) = x.
Proof. destruct x; simpl; now rewrite ?negb_involutive. Qed.

(** Multiplying by -1 is negating the product by 1, bit for bit. *)
Lemma f64_mul_sign (x : float) :
  f64_mul x (f64_of_sign true) = f64_neg (f64_mul x (f64_of_sign false)).
Proof. apply SFmul_opp_r. Qed.

Lemma SFcompare_refl (x : float) : is_nan x = false -> SFcompare x x = Some Eq.
Proof.
  destruct x as [s|s| |s m e]; simpl; intros H; try discriminate.
  - now destruct s.
  - now destruct s.
  - destruct s; rewrite Z.compare_refl, ?Pos.compare_cont_refl; reflexivity.
Qed.

Lemma f64_eqb_refl (x : float) : is_nan x = false -> f64_eqb x x = true.
Proof.
  intros H. unfold f64_eqb, SFeqb. now rewrite SFcompare_refl.
Qed.

Lemma is_nan_neg (x : float) : is_nan (f64_neg x) = is_nan x.
Proof. now destruct x. Qed.

(** ** The attribution engine: results *)

Lemma explain_returned_eq (X : External) (self : SklearnModel)
    (features : request) (samples : option request) :
  returned (explain X self features samples)
  = (_ <- _check true None self ;;
     computed <- returned (explain_shap_values X self features samples) ;;
     explain_format X self (fst computed) (snd computed)).
Proof.
  unfold explain. rewrite returned_bind.
  change (returned (lift (_check true None self))) with (_check true None self).
  destruct (_check true None self) as [[]|e]; simpl; [|reflexivity].
  now rewrite returned_bind.
Qed.

Lemma explain_returned (X : External) (self : SklearnModel)
    (features : request) (samples : option request) (r : attribution) :
  returned (explain X self features samples) = Ok r ->
  exists preprocessed shap_values,
    returned (explain_shap_values X self features samples)
      = Ok (preprocessed, shap_values)
    /\ explain_format X self preprocessed shap_values = Ok r.
Proof.
  rewrite explain_returned_eq. intros H.
  bind_inv H. bind_inv H. destruct a0 as [pre sv]. eauto.
Qed.

Lemma shap_stage_returned (X : External) (self : SklearnModel)
    (features : request) (samples : option request)
    (preprocessed : DataFrame pyval) (sv : shap_raw) :
  returned (explain_shap_values X self features samples) = Ok (preprocessed, sv) ->
  preprocess self features = Ok preprocessed.
Proof.
  unfold explain_shap_values. intros H.
  rewrite returned_bind in H. bind_inv H. rename a into pre, H_step into Hpre.
  rewrite returned_bind in H. bind_inv H.
  rewrite returned_bind in H. bind_inv H.
  rewrite returned_bind in H. bind_inv H.
  rewrite returned_bind in H. bind_inv H.
  rewrite returned_bind in H. bind_inv H.
  injection H as -> _. exact Hpre.
Qed.

Lemma dict_set_values {V : Type} (P : V -> Prop) (d : dict V) (k : string) (v : V) :
  Forall P (map snd d) -> P v -> Forall P (map snd (dict_set d k v)).
Proof.
  induction d as [|[k' v'] d IH]; simpl; intros Hd Hv.
  - constructor; [exact Hv | constructor].
  - inversion Hd; subst. destruct (String.eqb k' k); simpl; constructor; auto.
Qed.

(** What holds of the records of every frame the loop builds holds of
    every entry of its result. *)
Lemma format_classes_values (P : list (dict float) -> Prop)
    (sv : shap_raw) (process : bool) (index : list pyval) (cols : list string) :
  (forall values df, pd_DataFrame values (Some index) cols = Ok df ->
                     P (to_dict_records df)) ->
  forall items acc result,
    Forall P (map snd acc) ->
    format_classes sv process index cols items acc = Ok result ->
    Forall P (map snd result).
Proof.
  intros HP. induction items as [|[i c] items IH]; simpl; intros acc result Hacc H.
  - now injection H as <-.
  - bind_inv H. bind_inv H. apply (IH _ _ (dict_set_values _ _ _ Hacc (HP _ _ H_step0)) H).
Qed.

Lemma format_classes_keys (sv : shap_raw) (process : bool) (index : list pyval)
    (cols : list string) :
  forall items acc result,
    format_classes sv process index cols items acc = Ok result ->
    forall k, In k (dict_keys result) <-> In k (dict_keys acc) \/ In k (map snd items).
Proof.
  induction items as [|[i c] items IH]; simpl; intros acc result H k.
  - injection H as <-. tauto.
  - bind_inv H. bind_inv H. rewrite (IH _ _ H), dict_keys_set. intuition congruence.
Qed.

Lemma enumerate_values {A : Type} (l : list A) : map snd (enumerate l) = l.
Proof.
  unfold enumerate. generalize 0. induction l as [|x l IH]; intros n; simpl;
    [reflexivity | now rewrite IH].
Qed.

Lemma frame_records_keys {A : Type} (values : ndarray A) (index : option (list pyval))
    (cols : list string) (df : DataFrame A) :
  NoDup cols ->
  pd_DataFrame values index cols = Ok df ->
  Forall (fun m => dict_keys m = cols) (to_dict_records df).
Proof.
  intros Hnd H. apply pd_DataFrame_ok in H.
  destruct H as (Hc & _ & _ & Hrows & _). rewrite <- Hc in *.
  now apply to_dict_records_keys.
Qed.

Lemma frame_of_cells_rows {A : Type} (index : list pyval) (cols : list string)
    (cells : nat -> nat -> A) :
  length (df_rows (frame_of_cells index cols cells)) = length index
  /\ Forall (fun row => length row = length cols)
            (df_rows (frame_of_cells index cols cells)).
Proof.
  unfold frame_of_cells. simpl. rewrite length_map, length_seq. split; [reflexivity|].
  apply Forall_map, Forall_forall. intros i _. now rewrite length_map, length_seq.
Qed.

Lemma pd_DataFrame_raw_ok (X : External) (sv : shap_raw) (index : list pyval)
    (cols : list string) (df : DataFrame float + DataFrame pyobject) :
  pd_DataFrame_raw X sv index cols = Ok df ->
  match df with
  | inl d =>
    df_columns d = cols /\ length (df_rows d) = length index
    /\ Forall (fun row => length row = length cols) (df_rows d)
  | inr d =>
    df_columns d = cols /\ length (df_rows d) = length index
    /\ Forall (fun row => length row = length cols) (df_rows d)
  end.
Proof.
  assert (forall cells,
             pd_DataFrame_object X sv index cols = Ok cells ->
             df_columns (frame_of_cells index cols cells) = cols
             /\ length (df_rows (frame_of_cells index cols cells)) = length index
             /\ Forall (fun row => length row = length cols)
                       (df_rows (frame_of_cells index cols cells))) as Hobj.
  { intros cells _. split; [reflexivity|]. apply frame_of_cells_rows. }
  destruct sv as [[|a l]|a|n]; simpl; intros H.
  - injection H as <-. simpl. rewrite length_map. repeat split.
    apply Forall_map, Forall_forall. intros; apply length_map.
  - bind_inv H. injection H as <-. now apply Hobj.
  - bind_inv H. injection H as <-. apply pd_DataFrame_ok in H_step.
    destruct H_step as (Hc & _ & Hlen & Hrows & Hidx).
    rewrite (Hidx index eq_refl) in Hlen. auto.
  - bind_inv H. injection H as <-. now apply Hobj.
Qed.

(** C2: on a classification model, when the raw output is not a list and
    is not an array on a binary model, [explain] returns no result; once
    the readiness gate and the class names are passed, what it raises is
    the error for an unknown class of raw output. *)
Theorem explain_unknown_shape (X : External) (self : SklearnModel)
    (features : request) (samples : option request)
    (preprocessed : DataFrame pyval) (shap_values : shap_raw) :
  _is_classification self = true ->
  returned (explain_shap_values X self features samples)
    = Ok (preprocessed, shap_values) ->
  isinstance_list shap_values = false ->
  isinstance_ndarray shap_values && _is_binary_classification self = false ->
  is_ok (returned (explain X self features samples)) = false
  /\ (forall names,
        _check true None self = Ok tt ->
        _get_class_names X self = Ok names ->
        returned (explain X self features samples)
        = Raise (ValueError "Unknown objet class for shap_values variable")).
Proof.
  intros Hcls Hstage Hlist Harr.
  rewrite explain_returned_eq, Hstage. unfold explain_format. simpl.
  rewrite Hcls, Hlist, Harr. split.
  - destruct (_check true None self); simpl; [|reflexivity].
    destruct (_get_class_names X self); reflexivity.
  - intros names -> ->. reflexivity.
Qed.

Lemma explain_unknown_shape_witness :
  is_ok (returned (explain (Demo.shap_returning (ShapOther "Explanation"))
                     Demo.classifier (ReqRecord Demo.record) None)) = false
  /\ (forall names,
        _check true None Demo.classifier = Ok tt ->
        _get_class_names (Demo.shap_returning (ShapOther "Explanation"))
          Demo.classifier = Ok names ->
        returned (explain (Demo.shap_returning (ShapOther "Explanation"))
                    Demo.classifier (ReqRecord Demo.record) None)
        = Raise (ValueError "Unknown objet class for shap_values variable")).
Proof.
  eapply (@explain_unknown_shape (Demo.shap_returning (ShapOther "Explanation"))
            Demo.classifier (ReqRecord Demo.record) None _ (ShapOther "Explanation"));
    reflexivity.
Defined.

(** C8: in every result of [explain], for a schema of distinct feature
    names, each per-record mapping (each element of the regression
    sequence, each element of each class's sequence) has the feature names
    as its keys, in their order; a regression result is a sequence with
    one mapping per row of the preprocessed table, so that for a table of
    one row it is a single mapping with the feature names as keys. *)
Theorem explain_mappings_keys (X : External) (self : SklearnModel)
    (features : request) (samples : option request) (r : attribution) :
  distinct (_feature_names self) = true ->
  returned (explain X self features samples) = Ok r ->
  Forall (fun keys => keys = _feature_names self) (mapping_keys r)
  /\ (_is_classification self = false ->
      exists preprocessed,
        preprocess self features = Ok preprocessed
        /\ ((exists records, r = ByRecord records)
            \/ (exists records, r = ByRecordOf records))
        /\ length (mapping_keys r) = length (df_index preprocessed)
        /\ (length (df_index preprocessed) = 1 ->
            mapping_keys r = [_feature_names self])).
Proof.
  intros Hd H. apply distinct_NoDup in Hd.
  apply explain_returned in H. destruct H as (pre & sv & Hstage & H).
  apply shap_stage_returned in Hstage.
  unfold explain_format in H. destruct (_is_classification self).
  - split; [|discriminate].
    bind_inv H. bind_inv H. bind_inv H. injection H as <-. simpl.
    apply Forall_map, Forall_concat.
    eapply format_classes_values; [| |exact H_step1]; [|constructor].
    intros values df Hdf. eapply frame_records_keys; eassumption.
  - bind_inv H. injection H as <-. apply pd_DataFrame_raw_ok in H_step.
    assert (forall (A : Type) (d : DataFrame A),
               df_columns d = _feature_names self ->
               length (df_rows d) = length (df_index pre) ->
               Forall (fun row => length row = length (_feature_names self))
                      (df_rows d) ->
               Forall (fun keys => keys = _feature_names self)
                      (map dict_keys (to_dict_records d))
               /\ length (map dict_keys (to_dict_records d))
                  = length (df_index pre)) as Hframe.
    { intros A d Hc Hlen Hrows. split.
      - apply Forall_map. rewrite <- Hc in *. now apply to_dict_records_keys.
      - now rewrite length_map, to_dict_records_length. }
    assert (forall keys : list (list string),
               Forall (fun k => k = _feature_names self) keys ->
               length keys = length (df_index pre) ->
               length (df_index pre) = 1 -> keys = [_feature_names self]) as Hone.
    { intros keys Hk Hn H1. rewrite H1 in Hn.
      destruct keys as [|k [|k' l]]; try discriminate.
      inversion Hk; subst. reflexivity. }
    destruct a as [d|d]; destruct H_step as (Hc & Hlen & Hrows);
      destruct (Hframe _ d Hc Hlen Hrows) as [Hkeys Hn]; simpl;
      (split; [exact Hkeys|]); intros _; exists pre;
      (split; [assumption|]); (split; [eauto|]); (split; [exact Hn|]);
      now apply Hone.
Qed.

Lemma explain_mappings_keys_witness :
  Forall (fun keys => keys = ["age"; "color"])
         (mapping_keys
            (ByRecordOf [[("age", PyObject "Explanation");
                          ("color", PyObject "Explanation")]]))
  /\ (_is_classification Demo.regressor = false ->
      exists preprocessed,
        preprocess Demo.regressor (ReqRecord Demo.record) = Ok preprocessed
        /\ ((exists records,
               ByRecordOf [[("age", PyObject "Explanation");
                            ("color", PyObject "Explanation")]]
               = ByRecord records)
            \/ (exists records,
                  ByRecordOf [[("age", PyObject "Explanation");
                               ("color", PyObject "Explanation")]]
                  = ByRecordOf records))
        /\ length (mapping_keys
                     (ByRecordOf [[("age", PyObject "Explanation");
                                   ("color", PyObject "Explanation")]]))
           = length (df_index preprocessed)
        /\ (length (df_index preprocessed) = 1 ->
            mapping_keys
              (ByRecordOf [[("age", PyObject "Explanation");
                            ("color", PyObject "Explanation")]])
            = [["age"; "color"]])).
Proof.
  apply (@explain_mappings_keys (Demo.shap_returning (ShapOther "Explanation"))
           Demo.regressor (ReqRecord Demo.record) None); reflexivity.
Defined.

(** C10: the keys of the mappings of [predict_proba], and the class keys
    of a classification result of [explain], are the text forms of the
    classes of the unwrapped base predictor, an integer class being
    rendered in decimal. *)
Theorem result_keys_are_class_strings (X : External) (self : SklearnModel)
    (features : request) (samples : option request) :
  (forall result,
      predict_proba X self features = Ok result ->
      exists base classes,
        _extract_base_predictor (_model self) = Ok base
        /\ classes_ base = Some classes
        /\ Forall (fun m => forall k,
                      In k (dict_keys m)
                      <-> In k (map (np_str (np_float_str X)) classes)) result)
  /\ (forall d,
        returned (explain X self features samples) = Ok (ByClass d) ->
        exists base classes,
          _extract_base_predictor (_model self) = Ok base
          /\ classes_ base = Some classes
          /\ forall k, In k (dict_keys d)
                       <-> In k (map (np_str (np_float_str X)) classes))
  /\ (forall z, np_str (np_float_str X) (VInt z)
                = NilZero.string_of_int (Z.to_int z)).
Proof.
  split; [|split; [|reflexivity]].
  - intros result H. unfold predict_proba in H.
    bind_inv H. bind_inv H. bind_inv H. bind_inv H. bind_inv H. bind_inv H.
    injection H as <-.
    apply get_class_names_ok in H_step3.
    destruct H_step3 as (base & classes & Hb & Hc & ->).
    exists base, classes. repeat (split; [assumption|]).
    apply pd_DataFrame_ok in H_step4.
    destruct H_step4 as (Hcols & _ & _ & Hrows & _). rewrite <- Hcols in *.
    now apply to_dict_records_key_set.
  - intros d H. apply explain_returned in H.
    destruct H as (pre & sv & _ & H). unfold explain_format in H.
    destruct (_is_classification self).
    + bind_inv H. bind_inv H. bind_inv H. injection H as <-.
      apply get_class_names_ok in H_step.
      destruct H_step as (base & classes & Hb & Hc & ->).
      exists base, classes. repeat (split; [assumption|]).
      intros k. rewrite (format_classes_keys _ _ _ _ _ _ H_step1 k).
      rewrite enumerate_values. simpl. tauto.
    + bind_inv H. destruct a; discriminate.
Qed.

Lemma result_keys_are_class_strings_witness :
  exists base classes,
    _extract_base_predictor (_model Demo.classifier) = Ok base
    /\ classes_ base = Some classes
    /\ Forall (fun m => forall k,
                  In k (dict_keys m) <-> In k (map (np_str (fun _ => "nan")) classes))
              [[("0", Demo.quarter); ("1", Demo.three_quarters)]].
Proof.
  apply (proj1 (result_keys_are_class_strings
                  (Demo.shap_returning Demo.shared_array) Demo.classifier
                  (ReqRecord Demo.record) None)).
  reflexivity.
Defined.

(** ** Binary classification from one shared array *)

Lemma dict_map_compose {U V W : Type} (g : V -> W) (h : U -> V) (d : dict U) :
  dict_map g (dict_map h d) = dict_map (fun x => g (h x)) d.
Proof. unfold dict_map. rewrite map_map. reflexivity. Qed.

(** The records of the frame built from [a * k] are the records of [a]
    with every value multiplied by [k]. *)
Lemma scaled_records (a : ndarray float) (k : float) (index : list pyval)
    (cols : list string) (df : DataFrame float) :
  pd_DataFrame (nd_mul a k) (Some index) cols = Ok df ->
  to_dict_records df
  = map (fun row => dict_map (fun x => f64_mul x k)
                      (dict_of_items (combine cols row))) (nd_rows a).
Proof.
  intros H. apply pd_DataFrame_ok in H. destruct H as (Hc & Hr & _).
  unfold to_dict_records. rewrite Hc, Hr. simpl. rewrite map_map.
  apply map_ext. intros row.
  now rewrite combine_map_values, dict_map_of_items.
Qed.

Lemma negate_scaled (cols : list string) (rows : list (list float)) :
  map (fun row => dict_map (fun x => f64_mul x (f64_of_sign true))
                    (dict_of_items (combine cols row))) rows
  = negate_records
      (map (fun row => dict_map (fun x => f64_mul x (f64_of_sign false))
                         (dict_of_items (combine cols row))) rows).
Proof.
  unfold negate_records. rewrite map_map. apply map_ext. intros row.
  rewrite dict_map_compose. unfold dict_map. apply map_ext. intros [c x]. simpl.
  now rewrite f64_mul_sign.
Qed.

Lemma negate_records_involutive (recs : list (dict float)) :
  negate_records (negate_records recs) = recs.
Proof.
  unfold negate_records. rewrite map_map. rewrite <- (map_id recs) at 2.
  apply map_ext. intros d. rewrite dict_map_compose.
  unfold dict_map. rewrite <- (map_id d) at 2. apply map_ext. intros [c x].
  simpl. now rewrite f64_neg_involutive.
Qed.

Lemma attrib_negated (c0 c1 : string) (recs : list (dict float)) (i : nat)
    (f : string) :
  String.eqb c0 c1 = false ->
  attrib [(c0, negate_records recs); (c1, recs)] c0 i f
  = option_map f64_neg (attrib [(c0, negate_records recs); (c1, recs)] c1 i f).
Proof.
  intros Hne. unfold attrib. simpl.
  rewrite String.eqb_refl, Hne, String.eqb_refl.
  unfold negate_records. rewrite nth_error_map.
  destruct (nth_error recs i) as [record|]; simpl; [|reflexivity].
  apply dict_get_map.
Qed.

(** C1: on a classification model with the two classes [c0] and [c1],
    when the raw output is one shared array, a result of [explain] holds
    for the first class the records of the second with every value
    negated, and conversely; so the attribution of each feature of each
    record for [c0] is the negation of the one for [c1], bit for bit, and
    equal to it as floats unless it is NaN. *)
Theorem binary_attributions_negated (X : External) (self : SklearnModel)
    (features : request) (samples : option request)
    (preprocessed : DataFrame pyval) (a : ndarray float) (c0 c1 : string)
    (r : attribution) :
  _is_classification self = true ->
  returned (explain_shap_values X self features samples)
    = Ok (preprocessed, ShapArray a) ->
  _get_class_names X self = Ok [c0; c1] ->
  String.eqb c0 c1 = false ->
  returned (explain X self features samples) = Ok r ->
  exists recs0 recs1,
    r = ByClass [(c0, recs0); (c1, recs1)]
    /\ recs0 = negate_records recs1
    /\ recs1 = negate_records recs0
    /\ forall i f,
         attrib [(c0, recs0); (c1, recs1)] c0 i f
         = option_map f64_neg (attrib [(c0, recs0); (c1, recs1)] c1 i f)
         /\ forall x0 x1,
              attrib [(c0, recs0); (c1, recs1)] c0 i f = Some x0 ->
              attrib [(c0, recs0); (c1, recs1)] c1 i f = Some x1 ->
              is_nan x1 = false ->
              f64_eqb x0 (f64_neg x1) = true.
Proof.
  intros Hcls Hstage Hnames Hne H.
  apply explain_returned in H. destruct H as (pre & sv & Hstage' & H).
  rewrite Hstage in Hstage'. injection Hstage' as <- <-.
  unfold explain_format in H. rewrite Hcls, Hnames in H.
  cbn -[f64_of_sign] in H.
  destruct (_is_binary_classification self); cbn -[f64_of_sign] in H;
    [|discriminate].
  bind_inv H. injection H as <-. rename a0 into result, H_step into H.
  bind_inv H. rename a0 into df0, H_step into Hdf0.
  bind_inv H. rename a0 into df1, H_step into Hdf1.
  rewrite Hne in H. injection H as <-.
  apply scaled_records in Hdf0, Hdf1. rewrite negate_scaled in Hdf0.
  rewrite <- Hdf1 in Hdf0.
  exists (to_dict_records df0), (to_dict_records df1).
  split; [reflexivity|]. split; [exact Hdf0|].
  split; [rewrite Hdf0; now rewrite negate_records_involutive|].
  intros i f. rewrite Hdf0. split; [now apply attrib_negated|].
  intros x0 x1 H0 H1 Hnan.
  rewrite attrib_negated, H1 in H0 by assumption. injection H0 as <-.
  apply f64_eqb_refl. now rewrite is_nan_neg.
Qed.

Lemma binary_attributions_negated_witness :
  exists recs0 recs1,
    ByClass [("0", [[("age", f64_neg Demo.half); ("color", Demo.quarter)]]);
             ("1", [[("age", Demo.half); ("color", f64_neg Demo.quarter)]])]
      = ByClass [("0", recs0); ("1", recs1)]
    /\ recs0 = negate_records recs1
    /\ recs1 = negate_records recs0
    /\ forall i f,
         attrib [("0", recs0); ("1", recs1)] "0" i f
         = option_map f64_neg (attrib [("0", recs0); ("1", recs1)] "1" i f)
         /\ forall x0 x1,
              attrib [("0", recs0); ("1", recs1)] "0" i f = Some x0 ->
              attrib [("0", recs0); ("1", recs1)] "1" i f = Some x1 ->
              is_nan x1 = false ->
              f64_eqb x0 (f64_neg x1) = true.
Proof.
  eapply (@binary_attributions_negated (Demo.shap_returning Demo.shared_array)
            Demo.classifier (ReqRecord Demo.record) None);
    reflexivity.
Defined.

(** * Further properties *)

(** ** The unwrapper on compositions *)

Lemma last_step_app (front : list (string * estimator)) (name : string)
    (e : estimator) :
  last_step (front ++ [(name, e)]) = Ok e.
Proof.
  induction front as [|[n x] front IH]; [reflexivity|].
  destruct front as [|q front]; [reflexivity|]. exact IH.
Qed.

(** X1: of a Pipeline only the last step counts: whatever steps come
    before it, the base predictor is that of the last step. *)
Theorem extract_pipeline_last_step (front : list (string * estimator))
    (name : string) (e : estimator) b c t p pp :
  _extract_base_predictor
    (Estimator "Pipeline" (Some (front ++ [(name, e)])) b c t p pp)
  = _extract_base_predictor e.
Proof.
  rewrite extract_unfold. unfold unwrap_layer, is_pipeline. simpl.
  now rewrite last_step_app.
Qed.

(** X2: the estimators the unwrapper returns as they are, are exactly
    those that are neither a Pipeline nor a calibration wrapper. *)
Theorem extract_fixed_points (m : estimator) :
  _extract_base_predictor m = Ok m
  <-> is_pipeline m = false /\ is_calibration m = false.
Proof.
  split.
  - apply extract_plain.
  - intros [Hp Hc]. now apply extract_of_plain.
Qed.

Lemma extract_fixed_points_witness :
  _extract_base_predictor Demo.forest = Ok Demo.forest.
Proof.
  apply (proj2 (extract_fixed_points Demo.forest)). split; reflexivity.
Defined.

(** ** Class names in text form *)

Lemma parse_string_of_int (d : Decimal.signed_int) :
  option_map Z.of_int (NilZero.int_of_string (NilZero.string_of_int d))
  = Some (Z.of_int d).
Proof.
  destruct d as [u|u]; destruct u;
    try (rewrite NilZero.isi by discriminate; reflexivity).
  - rewrite NilZero.isi_posnil. reflexivity.
  - rewrite NilZero.isi_negnil. reflexivity.
Qed.

Lemma parse_int_str (z : Z) :
  parse_int (NilZero.string_of_int (Z.to_int z)) = Some z.
Proof.
  unfold parse_int. rewrite parse_string_of_int. f_equal. apply DecimalZ.of_to.
Qed.

Lemma np_str_int_inj (fs : float -> string) (z z' : Z) :
  np_str fs (VInt z) = np_str fs (VInt z') -> z = z'.
Proof.
  simpl. intros H. apply (f_equal parse_int) in H.
  rewrite !parse_int_str in H. now injection H.
Qed.

(** X4: the text form of an integer class parses back to the class, so
    a class list of distinct integers gives distinct keys. *)
Theorem integer_class_names_distinct (fs : float -> string) (zs : list Z) :
  (forall z, parse_int (np_str fs (VInt z)) = Some z)
  /\ (NoDup zs -> distinct (map (np_str fs) (map VInt zs)) = true).
Proof.
  split; [intros z; apply parse_int_str|].
  intros H. apply distinct_NoDup. rewrite map_map.
  induction H as [|z zs Hz Hzs IH]; simpl.
  - constructor.
  - constructor; [|exact IH].
    intros Hin. apply in_map_iff in Hin. destruct Hin as (z' & Heq & Hin).
    apply (np_str_int_inj fs) in Heq. subst. contradiction.
Qed.

Lemma integer_class_names_distinct_witness :
  distinct (map (np_str (fun _ => "nan")) (map VInt [0; 1; -1]%Z)) = true.
Proof.
  apply (proj2 (integer_class_names_distinct (fun _ => "nan") [0; 1; -1]%Z)).
  repeat constructor; simpl; intuition discriminate.
Defined.

(** ** What reaches the attribution capability *)

Lemma explain_gate (X : External) (self : SklearnModel)
    (features : request) (samples : option request) (e : exn) :
  _check true None self = Raise e ->
  explain X self features samples = ([], Raise e).
Proof.
  intros H. unfold explain, io_bind, lift. cbn [fst snd]. now rewrite H.
Qed.

(** X5: [explain] calls the attribution capability only after the gate
    is passed, the features are validated and preprocessed, the samples
    (when given) are validated and preprocessed, and the base predictor is
    resolved: input that fails any of these never reaches it. *)
Theorem explain_calls_need_valid_input (X : External) (self : SklearnModel)
    (features : request) (samples : option request) :
  calls (explain X self features samples) <> [] ->
  _check true None self = Ok tt
  /\ (exists preprocessed, preprocess self features = Ok preprocessed)
  /\ (forall s, samples = Some s ->
        exists validated data,
          _validate self s = Ok validated
          /\ preprocess self (ReqFrame validated) = Ok data)
  /\ (exists predictor, _get_predictor self = Ok predictor).
Proof.
  intros Hcalls. split.
  - destruct (_check true None self) as [[]|e] eqn:Hc; [reflexivity|].
    rewrite (explain_gate X self features samples Hc) in Hcalls.
    now contradiction Hcalls.
  - destruct (calls (explain X self features samples)) as [|c l] eqn:E;
      [now contradiction Hcalls|].
    assert (In c (calls (explain X self features samples))) as Hin
        by (rewrite E; now left).
    apply explain_calls, shap_stage_calls in Hin.
    destruct Hin as (pre & params & predictor & Hpre & Hpar & Hpred & _).
    split; [eauto|]. split; [|eauto].
    intros s ->. unfold explain_params in Hpar.
    bind_inv Hpar. bind_inv Hpar. eauto.
Qed.

Lemma explain_calls_need_valid_input_witness :
  _check true None Demo.classifier = Ok tt
  /\ (exists preprocessed,
        preprocess Demo.classifier (ReqRecord Demo.record) = Ok preprocessed)
  /\ (forall s, Some Demo.background = Some s ->
        exists validated data,
          _validate Demo.classifier s = Ok validated
          /\ preprocess Demo.classifier (ReqFrame validated) = Ok data)
  /\ (exists predictor, _get_predictor Demo.classifier = Ok predictor).
Proof.
  apply (@explain_calls_need_valid_input (Demo.shap_returning Demo.per_class)
           Demo.classifier (ReqRecord Demo.record) (Some Demo.background)).
  discriminate.
Defined.

(** X6: on a ready model, an error raised by the validation of the
    features is what [preprocess] and [predict] raise, what
    [predict_proba] raises on a classification task, and what [explain]
    raises on an explainable model, without any call to the attribution
    capability. *)
Theorem validation_error_surfaced (X : External) (self : SklearnModel)
    (features : request) (samples : option request) (e : exn) :
  _is_ready self = true ->
  _validate self features = Raise e ->
  preprocess self features = Raise e
  /\ predict self features = Raise e
  /\ (_get_task self = "classification" ->
      predict_proba X self features = Raise e)
  /\ (_is_explainable self = true ->
      explain X self features samples = ([], Raise e)).
Proof.
  intros Hr Hv. repeat split.
  - unfold preprocess. rewrite check_ready by assumption. simpl. now rewrite Hv.
  - unfold predict. rewrite check_ready by assumption. simpl. now rewrite Hv.
  - intros Ht. unfold predict_proba.
    rewrite check_classification by assumption. simpl. now rewrite Hv.
  - intros He. unfold explain, explain_shap_values, io_bind, lift, preprocess.
    cbn [fst snd]. unfold _check at 1. rewrite Hr, He. cbn [negb andb fst snd app].
    rewrite check_ready by assumption. simpl. now rewrite Hv.
Qed.

Lemma validation_error_surfaced_witness :
  preprocess Demo.classifier (ReqRecord Demo.partial_record)
    = Raise (ValueError "color")
  /\ predict Demo.classifier (ReqRecord Demo.partial_record)
     = Raise (ValueError "color")
  /\ (_get_task Demo.classifier = "classification" ->
      predict_proba (Demo.shap_returning Demo.shared_array) Demo.classifier
        (ReqRecord Demo.partial_record) = Raise (ValueError "color"))
  /\ (_is_explainable Demo.classifier = true ->
      explain (Demo.shap_returning Demo.shared_array) Demo.classifier
        (ReqRecord Demo.partial_record) None = ([], Raise (ValueError "color"))).
Proof.
  apply (@validation_error_surfaced (Demo.shap_returning Demo.shared_array)
           Demo.classifier (ReqRecord Demo.partial_record) None);
    reflexivity.
Defined.

(** X7: one run of [explain] makes at most two calls to the attribution
    capability: the construction of the explainer and then, never before
    and never without it, one request for the raw values. *)
Theorem explain_call_protocol (X : External) (self : SklearnModel)
    (features : request) (samples : option request) :
  calls (explain X self features samples) = []
  \/ (exists predictor params,
        calls (explain X self features samples)
        = [TreeExplainerCall predictor params])
  \/ (exists predictor params input,
        calls (explain X self features samples)
        = [TreeExplainerCall predictor params; ShapValuesCall input]).
Proof.
  unfold explain, explain_shap_values, call_TreeExplainer, call_shap_values,
    io_bind, lift, calls.
  cbn [fst snd].
  destruct (_check true None self); cbn [fst snd app]; [|now left].
  destruct (preprocess self features); cbn [fst snd app]; [|now left].
  destruct (explain_params self samples); cbn [fst snd app]; [|now left].
  destruct (_get_predictor self); cbn [fst snd app]; [|now left].
  match goal with |- context [shap_TreeExplainer X ?p ?q] =>
    destruct (shap_TreeExplainer X p q) end; cbn [fst snd app];
    [|right; left; eauto].
  destruct (df_getitem _ _); cbn [fst snd app]; [|right; left; eauto].
  match goal with |- context [shap_values X ?e ?i] =>
    destruct (shap_values X e i) end; cbn [fst snd app]; right; right; eauto.
Qed.

(** ** Selection of the feature columns *)

Lemma positions_absent (name : string) (cols : list string) (i : nat) :
  ~ In name cols -> positions name cols i = [].
Proof.
  revert i. induction cols as [|c cols IH]; intros i H; simpl; [reflexivity|].
  simpl in H. destruct (String.eqb c name) eqn:E.
  - apply String.eqb_eq in E. tauto.
  - simpl. apply IH. tauto.
Qed.

Lemma positions_present (name : string) (cols : list string) (i : nat) :
  In name cols -> positions name cols i <> [].
Proof.
  revert i. induction cols as [|c cols IH]; intros i H; simpl; [destruct H|].
  destruct (String.eqb c name) eqn:E; [discriminate|].
  simpl. apply IH. destruct H as [->|H]; [|exact H].
  now rewrite String.eqb_refl in E.
Qed.

Lemma select_columns_missing (cols names : list string) (missing : string) :
  In missing names -> ~ In missing cols ->
  exists k, select_columns cols names = Raise (KeyError k)
            /\ In k names /\ ~ In k cols.
Proof.
  induction names as [|n names IH]; intros Hin Hout; [destruct Hin|].
  simpl. destruct (in_dec string_dec n cols) as [Hn|Hn].
  - destruct Hin as [->|Hin]; [contradiction|].
    destruct (IH Hin Hout) as (k & Hk & Hkin & Hkout).
    pose proof (positions_present n cols 0 Hn) as Hp.
    destruct (positions n cols 0); [contradiction|].
    rewrite Hk. simpl. exists k. auto.
  - rewrite positions_absent by assumption. exists n. auto.
Qed.

(** X8: when the preprocessed table lacks a column named by the schema
    (a transform that drops or renames one), [explain] raises [KeyError]
    for such a name once the explainer is built, and never asks for raw
    values. *)
Theorem explain_missing_column (X : External) (self : SklearnModel)
    (features : request) (samples : option request)
    (preprocessed : DataFrame pyval) (params : shap_params)
    (predictor : estimator) (explainer : shap_explainer X) (missing : string) :
  _check true None self = Ok tt ->
  preprocess self features = Ok preprocessed ->
  explain_params self samples = Ok params ->
  _get_predictor self = Ok predictor ->
  shap_TreeExplainer X predictor params = Ok explainer ->
  In missing (_feature_names self) ->
  ~ In missing (df_columns preprocessed) ->
  exists k,
    explain X self features samples
    = ([TreeExplainerCall predictor params], Raise (KeyError k))
    /\ In k (_feature_names self)
    /\ ~ In k (df_columns preprocessed).
Proof.
  intros Hc Hpre Hpar Hpred Hex Hin Hout.
  destruct (select_columns_missing _ _ _ Hin Hout) as (k & Hk & Hkin & Hkout).
  exists k. split; [|auto].
  unfold explain, explain_shap_values, call_TreeExplainer, io_bind, lift.
  cbn [fst snd]. rewrite Hc. cbn [fst snd app].
  rewrite Hpre. cbn [fst snd app]. rewrite Hpar. cbn [fst snd app].
  rewrite Hpred. cbn [fst snd app]. rewrite Hex. cbn [fst snd app].
  unfold df_getitem. rewrite Hk. reflexivity.
Qed.

Lemma explain_missing_column_witness :
  exists k,
    explain (Demo.shap_returning Demo.shared_array) Demo.lossy_classifier
      (ReqRecord Demo.record) None
    = ([TreeExplainerCall Demo.tree
          (mk_shap_params None "tree_path_dependent" "margin")],
       Raise (KeyError k))
    /\ In k Demo.schema
    /\ ~ In k ["age"].
Proof.
  apply (@explain_missing_column (Demo.shap_returning Demo.shared_array)
           Demo.lossy_classifier (ReqRecord Demo.record) None
           (mkDataFrame [VInt 0] ["age"] [[VInt 30]])
           (mk_shap_params None "tree_path_dependent" "margin")
           Demo.tree tt "color");
    try reflexivity.
  - right. left. reflexivity.
  - simpl. intros [H|[]]. discriminate.
Defined.

Lemma positions_unique (name : string) (front back : list string) (i : nat) :
  ~ In name front -> ~ In name back ->
  positions name (front ++ name :: back) i = [i + length front].
Proof.
  revert i. induction front as [|c front IH]; intros i Hf Hb; simpl.
  - rewrite String.eqb_refl, positions_absent by assumption.
    simpl. now rewrite Nat.add_0_r.
  - simpl in Hf. destruct (String.eqb c name) eqn:E.
    + apply String.eqb_eq in E. tauto.
    + simpl. rewrite IH by tauto. f_equal. lia.
Qed.

Lemma select_columns_suffix (front names : list string) :
  NoDup (front ++ names) ->
  select_columns (front ++ names) names = Ok (seq (length front) (length names)).
Proof.
  revert front. induction names as [|n names IH]; intros front H; [reflexivity|].
  simpl. rewrite positions_unique.
  - simpl.
    replace (front ++ n :: names) with ((front ++ [n]) ++ names)
      by now rewrite <- app_assoc.
    rewrite IH.
    + simpl. rewrite length_app. simpl. do 3 f_equal. lia.
    + now rewrite <- app_assoc.
  - apply NoDup_remove_2 in H. rewrite in_app_iff in H. tauto.
  - apply NoDup_remove_2 in H. rewrite in_app_iff in H. tauto.
Qed.

Lemma pick_suffix {A : Type} (front row : list A) :
  pick (front ++ row) (seq (length front) (length row)) = row.
Proof.
  revert front. induction row as [|x row IH]; intros front; [reflexivity|].
  simpl. rewrite nth_error_app2, Nat.sub_diag by lia. simpl. f_equal.
  replace (front ++ x :: row) with ((front ++ [x]) ++ row)
    by now rewrite <- app_assoc.
  replace (S (length front)) with (length (front ++ [x]))
    by (rewrite length_app; simpl; lia).
  apply IH.
Qed.

(** Selecting all the columns of a frame, in their order, gives the
    frame back. *)
Lemma df_getitem_all {A : Type} (df : DataFrame A) :
  NoDup (df_columns df) ->
  Forall (fun row => length row = length (df_columns df)) (df_rows df) ->
  df_getitem df (df_columns df) = Ok df.
Proof.
  destruct df as [idx cols rows]. simpl. intros Hnd Hrows.
  unfold df_getitem. simpl.
  pose proof (select_columns_suffix [] cols Hnd) as Hs. simpl in Hs.
  rewrite Hs. simpl. f_equal. f_equal.
  - apply (pick_suffix [] cols).
  - rewrite <- (map_id rows) at 2. apply map_ext_in. intros row Hin.
    rewrite Forall_forall in Hrows. rewrite <- (Hrows row Hin).
    apply (pick_suffix [] row).
Qed.

(** X9: when the preprocessed table has exactly the schema's columns,
    distinct and in order, what [explain] hands to the attribution
    capability is that table itself (as a DataFrame for the LGBM
    families, as its values otherwise): no row or cell is moved. *)
Theorem explain_input_is_preprocessed (X : External) (self : SklearnModel)
    (features : request) (samples : option request)
    (preprocessed : DataFrame pyval) (input : shap_input) :
  preprocess self features = Ok preprocessed ->
  df_columns preprocessed = _feature_names self ->
  distinct (_feature_names self) = true ->
  Forall (fun row => length row = length (_feature_names self))
         (df_rows preprocessed) ->
  In (ShapValuesCall input) (calls (explain X self features samples)) ->
  input = shap_argument self preprocessed.
Proof.
  intros Hpre Hcols Hd Hrows Hin.
  apply explain_calls, shap_stage_calls in Hin.
  destruct Hin as (pre & params & predictor & Hpre' & _ & _ & H).
  rewrite Hpre in Hpre'. injection Hpre' as <-.
  destruct H as [H|(ex & input_data & _ & Hsel & H)]; [discriminate|].
  injection H as ->. f_equal.
  rewrite <- Hcols, df_getitem_all in Hsel.
  - now injection Hsel.
  - rewrite Hcols. now apply distinct_NoDup.
  - now rewrite Hcols.
Qed.

Lemma explain_input_is_preprocessed_witness :
  AsArray (mk_ndarray 2 [[VInt 30; VStr "red"]])
  = shap_argument Demo.classifier
      (mkDataFrame [VInt 0] Demo.schema [[VInt 30; VStr "red"]]).
Proof.
  apply (@explain_input_is_preprocessed (Demo.shap_returning Demo.shared_array)
           Demo.classifier (ReqRecord Demo.record) None);
    try reflexivity.
  - repeat constructor.
  - right. left. reflexivity.
Defined.

(** ** The loop over the classes *)

Lemma dict_get_nth {V : Type} (d : dict V) (j : nat) (c : string) (v : V) :
  NoDup (dict_keys d) -> nth_error d j = Some (c, v) -> dict_get d c = Some v.
Proof.
  revert j. induction d as [|[k w] d IH]; intros j Hnd Hj.
  - destruct j; discriminate.
  - simpl in Hnd. inversion Hnd as [|? ? Hk Hd]; subst.
    destruct j as [|j]; simpl in *.
    + injection Hj as -> ->. now rewrite String.eqb_refl.
    + destruct (String.eqb k c) eqn:E.
      * apply String.eqb_eq in E. subst. exfalso. apply Hk.
        apply nth_error_In in Hj.
        apply (in_map fst) in Hj. exact Hj.
      * eapply IH; eassumption.
Qed.

(** The loop appends one entry per class, in order, when the classes are
    distinct and new to the result: the entry of the class at position
    [j] holds the records of the frame built from that turn's values. *)
Lemma format_classes_entries (sv : shap_raw) (process : bool)
    (index : list pyval) (cols : list string) :
  forall cs n acc result,
    NoDup (dict_keys acc ++ cs) ->
    format_classes sv process index cols (combine (seq n (length cs)) cs) acc
      = Ok result ->
    exists news,
      result = acc ++ news /\ map fst news = cs
      /\ forall j c, nth_error cs j = Some c ->
           exists values df,
             class_values sv process (n + j) = Ok values
             /\ pd_DataFrame values (Some index) cols = Ok df
             /\ nth_error news j = Some (c, to_dict_records df).
Proof.
  induction cs as [|c cs IH]; intros n acc result Hnd H.
  - simpl in H. injection H as <-. exists []. rewrite app_nil_r.
    repeat split. intros [|j] c'; discriminate.
  - cbn [length seq combine format_classes] in H.
    bind_inv H. rename a into values, H_step into Hval.
    bind_inv H. rename a into df, H_step into Hdf.
    rewrite dict_set_fresh in H.
    2:{ apply NoDup_remove_2 in Hnd. rewrite in_app_iff in Hnd. tauto. }
    apply IH in H.
    2:{ unfold dict_keys. rewrite map_app, <- app_assoc. exact Hnd. }
    destruct H as (news & -> & Hkeys & Hentries).
    exists ((c, to_dict_records df) :: news). rewrite <- app_assoc.
    split; [reflexivity|]. split; [simpl; now rewrite Hkeys|].
    intros [|j] c' Hj; simpl in Hj.
    + injection Hj as <-. rewrite Nat.add_0_r. eauto.
    + rewrite Nat.add_succ_r. apply (Hentries j c' Hj).
Qed.

(** X10: on a classification model with distinct class names, when the
    raw output is a list of arrays, the result has the class names as its
    keys, in order, and the entry of the class at position [i] holds the
    records of the frame built from the array at position [i]; arrays
    beyond the number of classes are not read. *)
Theorem explain_per_class_alignment (X : External) (self : SklearnModel)
    (features : request) (samples : option request)
    (preprocessed : DataFrame pyval) (l : list (ndarray float))
    (names : list string) (r : attribution) :
  _is_classification self = true ->
  returned (explain_shap_values X self features samples)
    = Ok (preprocessed, ShapList l) ->
  _get_class_names X self = Ok names ->
  distinct names = true ->
  returned (explain X self features samples) = Ok r ->
  exists d,
    r = ByClass d /\ dict_keys d = names
    /\ forall i c, nth_error names i = Some c ->
         exists a df,
           nth_error l i = Some a
           /\ pd_DataFrame a (Some (df_index preprocessed)) (_feature_names self)
              = Ok df
           /\ dict_get d c = Some (to_dict_records df).
Proof.
  intros Hcls Hstage Hnames Hd H. apply distinct_NoDup in Hd.
  apply explain_returned in H. destruct H as (pre & sv & Hstage' & H).
  rewrite Hstage in Hstage'. injection Hstage' as <- <-.
  unfold explain_format in H. rewrite Hcls, Hnames in H. simpl in H.
  bind_inv H. injection H as <-. rename a into d, H_step into H.
  unfold enumerate in H. apply format_classes_entries in H; [|exact Hd].
  destruct H as (news & -> & Hkeys & Hentries). simpl.
  exists news. split; [reflexivity|]. split; [exact Hkeys|].
  intros i c Hi. destruct (Hentries i c Hi) as (values & df & Hval & Hdf & Hn).
  simpl in Hval. unfold list_getitem in Hval.
  destruct (nth_error l i) as [a|] eqn:Ha; [|discriminate].
  injection Hval as <-. exists a, df. repeat split; try assumption.
  eapply dict_get_nth; [|exact Hn]. unfold dict_keys. now rewrite Hkeys.
Qed.

Lemma explain_per_class_alignment_witness :
  exists d,
    ByClass [("0", [[("age", f64_neg Demo.half); ("color", Demo.quarter)]]);
             ("1", [[("age", Demo.half); ("color", f64_neg Demo.quarter)]])]
      = ByClass d
    /\ dict_keys d = ["0"; "1"]
    /\ forall i c, nth_error ["0"; "1"] i = Some c ->
         exists a df,
           nth_error [mk_ndarray 2 [[f64_neg Demo.half; Demo.quarter]];
                      mk_ndarray 2 [[Demo.half; f64_neg Demo.quarter]]] i = Some a
           /\ pd_DataFrame a (Some [VInt 0]) Demo.schema = Ok df
           /\ dict_get d c = Some (to_dict_records df).
Proof.
  apply (@explain_per_class_alignment (Demo.shap_returning Demo.per_class)
           Demo.classifier (ReqRecord Demo.record) None
           (mkDataFrame [VInt 0] Demo.schema [[VInt 30; VStr "red"]]));
    reflexivity.
Defined.

Lemma format_classes_short (l : list (ndarray float)) (index : list pyval)
    (cols : list string) :
  Forall (fun a => is_ok (pd_DataFrame a (Some index) cols) = true) l ->
  forall cs n acc,
    n <= length l -> length l < n + length cs ->
    format_classes (ShapList l) false index cols
      (combine (seq n (length cs)) cs) acc
    = Raise (IndexError "list index out of range").
Proof.
  intros Hl. induction cs as [|c cs IH]; intros n acc Hn Hlen; simpl in *.
  - lia.
  - unfold list_getitem. destruct (nth_error l n) as [a|] eqn:Ha; simpl.
    + assert (n < length l) by (apply nth_error_Some; congruence).
      rewrite Forall_forall in Hl.
      specialize (Hl a (nth_error_In _ _ Ha)).
      destruct (pd_DataFrame a (Some index) cols); [|discriminate]. simpl.
      apply IH; lia.
    + reflexivity.
Qed.

(** X11: on a classification model, a list of arrays shorter than the
    list of class names makes [explain] raise [IndexError] at the first
    class without an array (the frames of the arrays present being well
    shaped): no partial result is returned. *)
Theorem explain_list_too_short (X : External) (self : SklearnModel)
    (features : request) (samples : option request)
    (preprocessed : DataFrame pyval) (l : list (ndarray float))
    (names : list string) :
  _check true None self = Ok tt ->
  _is_classification self = true ->
  returned (explain_shap_values X self features samples)
    = Ok (preprocessed, ShapList l) ->
  _get_class_names X self = Ok names ->
  length l < length names ->
  Forall (fun a => is_ok (pd_DataFrame a (Some (df_index preprocessed))
                            (_feature_names self)) = true) l ->
  returned (explain X self features samples)
  = Raise (IndexError "list index out of range").
Proof.
  intros Hc Hcls Hstage Hnames Hlen Hl.
  rewrite explain_returned_eq, Hc, Hstage. unfold explain_format. simpl.
  rewrite Hcls, Hnames. simpl. unfold enumerate.
  rewrite format_classes_short; try assumption; try reflexivity; lia.
Qed.

Lemma explain_list_too_short_witness :
  returned (explain
              (Demo.shap_returning
                 (ShapList [mk_ndarray 2 [[Demo.half; Demo.quarter]]]))
              Demo.classifier (ReqRecord Demo.record) None)
  = Raise (IndexError "list index out of range").
Proof.
  apply (@explain_list_too_short
           (Demo.shap_returning
              (ShapList [mk_ndarray 2 [[Demo.half; Demo.quarter]]]))
           Demo.classifier (ReqRecord Demo.record) None
           (mkDataFrame [VInt 0] Demo.schema [[VInt 30; VStr "red"]])
           [mk_ndarray 2 [[Demo.half; Demo.quarter]]] ["0"; "1"]);
    try reflexivity.
  - simpl. lia.
  - repeat constructor.
Defined.

(** X12: in a classification result, the sequence of every class has
    one mapping per row of the preprocessed table. *)
Theorem explain_class_row_count (X : External) (self : SklearnModel)
    (features : request) (samples : option request) (r : attribution) :
  _is_classification self = true ->
  returned (explain X self features samples) = Ok r ->
  exists d preprocessed,
    r = ByClass d
    /\ preprocess self features = Ok preprocessed
    /\ Forall (fun records => length records = length (df_index preprocessed))
              (map snd d).
Proof.
  intros Hcls H.
  apply explain_returned in H. destruct H as (pre & sv & Hstage & H).
  apply shap_stage_returned in Hstage.
  unfold explain_format in H. rewrite Hcls in H.
  bind_inv H. bind_inv H. bind_inv H. injection H as <-.
  exists a1, pre. split; [reflexivity|]. split; [assumption|].
  eapply format_classes_values; [| |exact H_step1]; [|constructor].
  intros values df Hdf. apply pd_DataFrame_ok in Hdf.
  destruct Hdf as (_ & _ & Hlen & _ & Hidx).
  rewrite to_dict_records_length, Hlen. now rewrite (Hidx _ eq_refl).
Qed.

Lemma explain_class_row_count_witness :
  exists d preprocessed,
    ByClass [("0", [[("age", f64_neg Demo.half); ("color", Demo.quarter)]]);
             ("1", [[("age", Demo.half); ("color", f64_neg Demo.quarter)]])]
      = ByClass d
    /\ preprocess Demo.classifier (ReqRecord Demo.record) = Ok preprocessed
    /\ Forall (fun records => length records = length (df_index preprocessed))
              (map snd d).
Proof.
  apply (@explain_class_row_count (Demo.shap_returning Demo.shared_array)
           Demo.classifier (ReqRecord Demo.record) None);
    reflexivity.
Defined.

(** ** Values and their places *)

Lemma to_dict_records_combine {A : Type} (df : DataFrame A) :
  NoDup (df_columns df) ->
  Forall (fun row => length row = length (df_columns df)) (df_rows df) ->
  to_dict_records df = map (combine (df_columns df)) (df_rows df).
Proof.
  intros Hnd Hrows. unfold to_dict_records. apply map_ext_in. intros row Hin.
  rewrite Forall_forall in Hrows. specialize (Hrows row Hin).
  apply dict_of_items_distinct. now rewrite combine_keys.
Qed.

Lemma frame_records_combine {A : Type} (values : ndarray A)
    (index : option (list pyval)) (cols : list string) (df : DataFrame A) :
  NoDup cols ->
  pd_DataFrame values index cols = Ok df ->
  to_dict_records df = map (combine cols) (nd_rows values).
Proof.
  intros Hnd H. apply pd_DataFrame_ok in H.
  destruct H as (Hc & Hr & _ & Hrows & _).
  rewrite to_dict_records_combine; rewrite Hc; try assumption.
  now rewrite Hr.
Qed.

(** X13: on a regression model with distinct feature names, when the raw
    output is an array, the result is that array row by row: the mapping
    of record [i] pairs the feature names, in order, with row [i], and the
    array has one row per row of the preprocessed table and one column per
    feature. *)
Theorem explain_regression_alignment (X : External) (self : SklearnModel)
    (features : request) (samples : option request)
    (preprocessed : DataFrame pyval) (a : ndarray float) (r : attribution) :
  _is_classification self = false ->
  returned (explain_shap_values X self features samples)
    = Ok (preprocessed, ShapArray a) ->
  distinct (_feature_names self) = true ->
  returned (explain X self features samples) = Ok r ->
  r = ByRecord (map (combine (_feature_names self)) (nd_rows a))
  /\ length (nd_rows a) = length (df_index preprocessed)
  /\ nd_ncols a = length (_feature_names self).
Proof.
  intros Hcls Hstage Hd H. apply distinct_NoDup in Hd.
  apply explain_returned in H. destruct H as (pre & sv & Hstage' & H).
  rewrite Hstage in Hstage'. injection Hstage' as <- <-.
  unfold explain_format in H. rewrite Hcls in H. simpl in H.
  apply bind_ok in H. destruct H as (frame & Hraw & H).
  apply bind_ok in Hraw. destruct Hraw as (df & Hdf & Hraw).
  injection Hraw as <-. injection H as <-.
  split; [f_equal; eapply frame_records_combine; eassumption|].
  pose proof Hdf as Hshape. apply pd_DataFrame_ok in Hdf.
  destruct Hdf as (_ & Hr & Hlen & _ & Hidx).
  rewrite (Hidx _ eq_refl), Hr in Hlen. split; [exact Hlen|].
  unfold pd_DataFrame in Hshape.
  destruct (_ && _) eqn:E in Hshape; [|discriminate].
  apply andb_true_iff in E. destruct E as [E _].
  apply andb_true_iff in E. destruct E as [_ E]. now apply Nat.eqb_eq.
Qed.

Lemma explain_regression_alignment_witness :
  ByRecord [[("age", Demo.half); ("color", f64_neg Demo.quarter)]]
  = ByRecord (map (combine Demo.schema) [[Demo.half; f64_neg Demo.quarter]])
  /\ length [[Demo.half; f64_neg Demo.quarter]] = length [VInt 0]
  /\ 2 = length Demo.schema.
Proof.
  apply (@explain_regression_alignment (Demo.shap_returning Demo.shared_array)
           Demo.regressor (ReqRecord Demo.record) None
           (mkDataFrame [VInt 0] Demo.schema [[VInt 30; VStr "red"]])
           (mk_ndarray 2 [[Demo.half; f64_neg Demo.quarter]]));
    reflexivity.
Defined.

(** X14: a result of [predict_proba] is the estimator's probability
    array row by row: the mapping of record [i] pairs the class names, in
    order, with row [i] (for distinct class names), and the array has one
    column per class name. *)
Theorem predict_proba_alignment (X : External) (self : SklearnModel)
    (features : request) (result : list (dict float)) :
  predict_proba X self features = Ok result ->
  exists input model_predict_proba prediction names,
    _validate self features = Ok input
    /\ est_predict_proba (_model self) = Some model_predict_proba
    /\ model_predict_proba input = Ok prediction
    /\ _get_class_names X self = Ok names
    /\ nd_ncols prediction = length names
    /\ length result = length (nd_rows prediction)
    /\ (distinct names = true ->
        result = map (combine names) (nd_rows prediction)).
Proof.
  unfold predict_proba. intros H.
  bind_inv H. bind_inv H. rename a0 into input, H_step0 into Hv.
  bind_inv H. rename a0 into pp, H_step0 into Hpp.
  bind_inv H. rename a0 into prediction, H_step0 into Hp.
  bind_inv H. rename a0 into names, H_step0 into Hn.
  bind_inv H. rename a0 into df, H_step0 into Hdf. injection H as <-.
  exists input, pp, prediction, names.
  destruct (est_predict_proba (_model self)) as [pp'|]; [|discriminate].
  injection Hpp as ->.
  repeat (split; [assumption || reflexivity|]).
  pose proof Hdf as Hshape. apply pd_DataFrame_ok in Hshape.
  destruct Hshape as (_ & Hr & _).
  split; [|split].
  - unfold pd_DataFrame in Hdf.
    destruct (_ && _) eqn:E in Hdf; [|discriminate].
    apply andb_true_iff in E. destruct E as [E _].
    apply andb_true_iff in E. destruct E as [_ E]. now apply Nat.eqb_eq.
  - now rewrite to_dict_records_length, Hr.
  - intros Hd. apply distinct_NoDup in Hd.
    eapply frame_records_combine; eassumption.
Qed.

Lemma predict_proba_alignment_witness :
  exists input model_predict_proba prediction names,
    _validate Demo.classifier (ReqRecord Demo.record) = Ok input
    /\ est_predict_proba (_model Demo.classifier) = Some model_predict_proba
    /\ model_predict_proba input = Ok prediction
    /\ _get_class_names (Demo.shap_returning Demo.shared_array) Demo.classifier
       = Ok names
    /\ nd_ncols prediction = length names
    /\ length [[("0", Demo.quarter); ("1", Demo.three_quarters)]]
       = length (nd_rows prediction)
    /\ (distinct names = true ->
        [[("0", Demo.quarter); ("1", Demo.three_quarters)]]
        = map (combine names) (nd_rows prediction)).
Proof.
  apply (@predict_proba_alignment (Demo.shap_returning Demo.shared_array)
           Demo.classifier (ReqRecord Demo.record)).
  reflexivity.
Defined.

(** X15: when the estimator's probability array has not one column per
    class of the base predictor (a wrapper whose classes differ from
    those of the predictor it wraps), [predict_proba] raises [ValueError]
    and returns no mapping. *)
Theorem predict_proba_shape_mismatch (X : External) (self : SklearnModel)
    (features : request) (input : DataFrame pyval)
    (model_predict_proba : DataFrame pyval -> res (ndarray float))
    (prediction : ndarray float) (names : list string) :
  _check false (Some "classification") self = Ok tt ->
  _validate self features = Ok input ->
  est_predict_proba (_model self) = Some model_predict_proba ->
  model_predict_proba input = Ok prediction ->
  _get_class_names X self = Ok names ->
  nd_ncols prediction <> length names ->
  exists msg, predict_proba X self features = Raise (ValueError msg).
Proof.
  intros Hc Hv Hpp Hp Hn Hne. unfold predict_proba.
  rewrite Hc. simpl. rewrite Hv. simpl. rewrite Hpp. simpl. rewrite Hp. simpl.
  rewrite Hn. simpl. unfold pd_DataFrame.
  apply Nat.eqb_neq in Hne. rewrite Hne, andb_false_r. simpl. eauto.
Qed.

Lemma predict_proba_shape_mismatch_witness :
  exists msg,
    predict_proba (Demo.shap_returning Demo.shared_array) Demo.wide_classifier
      (ReqRecord Demo.record) = Raise (ValueError msg).
Proof.
  eapply (@predict_proba_shape_mismatch (Demo.shap_returning Demo.shared_array)
            Demo.wide_classifier (ReqRecord Demo.record));
    try reflexivity.
  simpl. discriminate.
Defined.

(** X16: on a classification model with distinct class names, when the
    raw output is one shared array, the result has the class names as its
    keys, in order; every class after the first holds the same records,
    and the first class holds these records negated. *)
Theorem explain_shared_array_classes (X : External) (self : SklearnModel)
    (features : request) (samples : option request)
    (preprocessed : DataFrame pyval) (a : ndarray float)
    (c0 : string) (rest : list string) (r : attribution) :
  _is_classification self = true ->
  returned (explain_shap_values X self features samples)
    = Ok (preprocessed, ShapArray a) ->
  _get_class_names X self = Ok (c0 :: rest) ->
  distinct (c0 :: rest) = true ->
  returned (explain X self features samples) = Ok r ->
  exists d records,
    r = ByClass d /\ dict_keys d = c0 :: rest
    /\ dict_get d c0 = Some (negate_records records)
    /\ forall c, In c rest -> dict_get d c = Some records.
Proof.
  intros Hcls Hstage Hnames Hd H. apply distinct_NoDup in Hd.
  apply explain_returned in H. destruct H as (pre & sv & Hstage' & H).
  rewrite Hstage in Hstage'. injection Hstage' as <- <-.
  unfold explain_format in H. rewrite Hcls, Hnames in H.
  cbn -[f64_of_sign format_classes enumerate] in H.
  destruct (_is_binary_classification self);
    cbn -[f64_of_sign format_classes enumerate] in H; [|discriminate].
  bind_inv H. injection H as <-. rename a0 into d, H_step into H.
  unfold enumerate in H. apply format_classes_entries in H; [|exact Hd].
  destruct H as (news & -> & Hkeys & Hentries). simpl.
  assert (NoDup (dict_keys news)) as Hnd by (unfold dict_keys; now rewrite Hkeys).
  destruct (Hentries 0 c0 eq_refl) as (v0 & df0 & Hv0 & Hdf0 & Hn0).
  cbn -[f64_of_sign] in Hv0. injection Hv0 as <-.
  apply scaled_records in Hdf0. rewrite negate_scaled in Hdf0.
  exists news, (negate_records (to_dict_records df0)).
  split; [reflexivity|]. split; [exact Hkeys|]. split.
  - rewrite negate_records_involutive. eapply dict_get_nth; eassumption.
  - intros c Hin. apply In_nth_error in Hin. destruct Hin as (j & Hj).
    destruct (Hentries (S j) c Hj) as (v & df & Hv & Hdf & Hn).
    cbn -[f64_of_sign] in Hv. injection Hv as <-.
    apply scaled_records in Hdf.
    change f64_one with (f64_of_sign false) in Hdf.
    rewrite Hdf0, negate_records_involutive, <- Hdf.
    eapply dict_get_nth; eassumption.
Qed.

Lemma explain_shared_array_classes_witness :
  exists d records,
    ByClass [("0", [[("age", f64_neg Demo.half); ("color", Demo.quarter)]]);
             ("1", [[("age", Demo.half); ("color", f64_neg Demo.quarter)]])]
      = ByClass d
    /\ dict_keys d = ["0"; "1"]
    /\ dict_get d "0" = Some (negate_records records)
    /\ forall c, In c ["1"] -> dict_get d c = Some records.
Proof.
  apply (@explain_shared_array_classes (Demo.shap_returning Demo.shared_array)
           Demo.classifier (ReqRecord Demo.record) None
           (mkDataFrame [VInt 0] Demo.schema [[VInt 30; VStr "red"]])
           (mk_ndarray 2 [[Demo.half; f64_neg Demo.quarter]]));
    reflexivity.
Defined.

(** ** Class names under wrapping *)

(** X17: the class names of a model are those of its base predictor
    whatever is wrapped around it: putting the estimator last in a
    Pipeline, or inside a calibration wrapper, leaves them as they are,
    whichever classes the wrapper itself declares. *)
Theorem class_names_ignore_wrappers (X : External)
    ready task expl cls bin names ptype md validate (m : estimator) :
  (forall front name b c t p pp,
      _get_class_names X
        (mkSklearnModel ready task expl cls bin names ptype md validate
           (Estimator "Pipeline" (Some (front ++ [(name, m)])) b c t p pp))
      = _get_class_names X
          (mkSklearnModel ready task expl cls bin names ptype md validate m))
  /\ (forall wrapper s c t p pp,
        String.eqb wrapper "Pipeline" = false ->
        str_in "CalibratedClassifier" wrapper = true ->
        _get_class_names X
          (mkSklearnModel ready task expl cls bin names ptype md validate
             (Estimator wrapper s (Some m) c t p pp))
        = _get_class_names X
            (mkSklearnModel ready task expl cls bin names ptype md validate m)).
Proof.
  split.
  - intros front name b c t p pp.
    unfold _get_class_names, _get_predictor, _check. cbn [_is_ready _get_task _model].
    rewrite (extract_unfold (Estimator "Pipeline" _ b c t p pp)).
    unfold unwrap_layer, is_pipeline. cbn [type_name steps String.eqb Ascii.eqb Bool.eqb].
    cbn [getattr bind]. now rewrite last_step_app.
  - intros wrapper s c t p pp Hp Hc.
    unfold _get_class_names, _get_predictor, _check. cbn [_is_ready _get_task _model].
    rewrite (extract_unfold (Estimator wrapper s (Some m) c t p pp)).
    unfold unwrap_layer, is_pipeline, is_calibration.
    cbn [type_name base_estimator]. now rewrite Hp, Hc.
Qed.

Lemma class_names_ignore_wrappers_witness :
  _get_class_names (Demo.shap_returning Demo.shared_array)
    (mkSklearnModel true "classification" true true true Demo.schema
       "DecisionTreeClassifier" None (Demo.validate Demo.schema) Demo.wide)
  = _get_class_names (Demo.shap_returning Demo.shared_array)
      (mkSklearnModel true "classification" true true true Demo.schema
         "DecisionTreeClassifier" None (Demo.validate Demo.schema) Demo.tree).
Proof.
  apply (proj2 (class_names_ignore_wrappers
                  (Demo.shap_returning Demo.shared_array)
                  true "classification" true true true Demo.schema
                  "DecisionTreeClassifier" None (Demo.validate Demo.schema)
                  Demo.tree));
    reflexivity.
Defined.
